(** * The research-assistant chat console (src/app.py)

    A shallow embedding of the Streamlit script [app.py]: the session
    state it keeps, the sidebar (agent checkboxes, fiscal filters, the
    Clear Conversation button), the chat handler with its single
    outbound request, and the download link built from the last report.

    Python data is modelled as the script has it:
    - a [str] is a sequence of code points ([pystr]), [bytes] a list of
      [byte]; [str.encode], [bytes.decode], [base64.b64encode] and
      [base64.b64decode] are the real codecs;
    - a value obtained from [response.json()] is a [PyVal];
    - a message dictionary is a record whose optional keys are options;
    - exceptions are values of [Exc] carried in a sum.

    The script is a computation in a small monad ([Script]) over the
    session state, with a log of what it draws, prints and sends, and
    with exceptions; the widgets and the remote API are its inputs.
    One user event is one [run]; a browser tab ([Browser]) is what the
    widgets hold, the page last drawn and the session.

    The definitions come first; the proofs follow, from the codecs up
    to whole user events. *)

From Stdlib Require Import List ZArith NArith Lia Bool String Ascii DecimalString.
From Stdlib.Strings Require Import Byte.
Import ListNotations.

Set Warnings "-register-all".
Open Scope N_scope.

(* ================================================================= *)
(** ** Python strings and bytes *)

(** A Python [str]: its code points, in order. *)
Definition pystr := list N.

(** The code points of an ASCII literal of the script. *)
Definition lit (s : string) : pystr := map Byte.to_N (list_byte_of_string s).

(** The double-quote character, which appears inside the f-string of
    [get_download_link]. *)
Definition dq : pystr := [34].

Definition pystr_eqb (a b : pystr) : bool :=
  if list_eq_dec N.eq_dec a b then true else false.

Fixpoint starts_with (p s : pystr) : bool :=
  match p, s with
  | [], _ => true
  | _ :: _, [] => false
  | x :: p', y :: s' => (x =? y) && starts_with p' s'
  end.

(** Python's [sub in s] on strings. *)
Fixpoint contains (sub s : pystr) : bool :=
  starts_with sub s ||
  match s with
  | [] => false
  | _ :: s' => contains sub s'
  end.

(** [sep.join(parts)]. *)
Fixpoint join (sep : pystr) (parts : list pystr) : pystr :=
  match parts with
  | [] => []
  | [p] => p
  | p :: rest => p ++ sep ++ join sep rest
  end.

(** [str(n)] for an [int]. *)
Definition str_of_int (n : Z) : pystr := lit (NilZero.string_of_int (Z.to_int n)).

Definition byte_of_N (n : N) : byte :=
  match Byte.of_N n with
  | Some b => b
  | None => x00
  end.

(* ----------------------------------------------------------------- *)
(** *** [str.encode()] and [bytes.decode()]: UTF-8 *)

(** The encoding of one code point.  A lone surrogate has no encoding
    ([UnicodeEncodeError]); a Python [str] holds no code point above
    0x10FFFF. *)
Definition utf8_encode_cp (c : N) : option (list byte) :=
  if c <? 0x80 then Some [byte_of_N c]
  else if c <? 0x800 then
    Some [byte_of_N (0xC0 + c / 64); byte_of_N (0x80 + c mod 64)]
  else if c <? 0x10000 then
    if (0xD800 <=? c) && (c <? 0xE000) then None
    else Some [byte_of_N (0xE0 + c / 4096);
               byte_of_N (0x80 + (c / 64) mod 64);
               byte_of_N (0x80 + c mod 64)]
  else if c <? 0x110000 then
    Some [byte_of_N (0xF0 + c / 262144);
          byte_of_N (0x80 + (c / 4096) mod 64);
          byte_of_N (0x80 + (c / 64) mod 64);
          byte_of_N (0x80 + c mod 64)]
  else None.

Fixpoint utf8_encode (s : pystr) : option (list byte) :=
  match s with
  | [] => Some []
  | c :: s' =>
      match utf8_encode_cp c, utf8_encode s' with
      | Some bs, Some rest => Some (bs ++ rest)
      | _, _ => None
      end
  end.

Definition is_cont (b : byte) : bool :=
  (0x80 <=? Byte.to_N b) && (Byte.to_N b <? 0xC0).

Definition cont_bits (b : byte) : N := Byte.to_N b - 0x80.

(** The strict decoder: continuation bytes are checked, overlong forms,
    surrogates and values above 0x10FFFF are refused
    ([UnicodeDecodeError]). *)
Fixpoint utf8_decode (bs : list byte) : option pystr :=
  match bs with
  | [] => Some []
  | b1 :: r1 =>
      let n1 := Byte.to_N b1 in
      if n1 <? 0x80 then option_map (cons n1) (utf8_decode r1)
      else if n1 <? 0xC0 then None
      else if n1 <? 0xE0 then
        match r1 with
        | b2 :: r2 =>
            let c := (n1 - 0xC0) * 64 + cont_bits b2 in
            if is_cont b2 && (0x80 <=? c)
            then option_map (cons c) (utf8_decode r2) else None
        | _ => None
        end
      else if n1 <? 0xF0 then
        match r1 with
        | b2 :: b3 :: r3 =>
            let c := (n1 - 0xE0) * 4096 + cont_bits b2 * 64 + cont_bits b3 in
            if is_cont b2 && is_cont b3 && (0x800 <=? c)
               && negb ((0xD800 <=? c) && (c <? 0xE000))
            then option_map (cons c) (utf8_decode r3) else None
        | _ => None
        end
      else
        match r1 with
        | b2 :: b3 :: b4 :: r4 =>
            let c := (n1 - 0xF0) * 262144 + cont_bits b2 * 4096
                     + cont_bits b3 * 64 + cont_bits b4 in
            if is_cont b2 && is_cont b3 && is_cont b4
               && (0x10000 <=? c) && (c <? 0x110000)
            then option_map (cons c) (utf8_decode r4) else None
        | _ => None
        end
  end.

(** Text in the usual sense: Unicode scalar values only. *)
Definition scalar_value (c : N) : Prop :=
  c < 0x110000 /\ ~ (0xD800 <= c < 0xE000).

Definition well_formed (s : pystr) : Prop := Forall scalar_value s.

(* ----------------------------------------------------------------- *)
(** *** [base64.b64encode] and [base64.b64decode] *)

Definition b64_alphabet : list byte :=
  list_byte_of_string
    "ABCDEFGHIJKLMNOPQRSTUVWXYZabcdefghijklmnopqrstuvwxyz0123456789+/".

Definition b64_pad : byte := "="%byte.

Definition b64_char (i : N) : byte := nth (N.to_nat i) b64_alphabet b64_pad.

Fixpoint index_of (c : byte) (l : list byte) (i : N) : option N :=
  match l with
  | [] => None
  | x :: l' => if Byte.eqb c x then Some i else index_of c l' (i + 1)
  end.

Definition b64_index (c : byte) : option N := index_of c b64_alphabet 0.

Fixpoint b64encode (bs : list byte) : list byte :=
  match bs with
  | [] => []
  | [a] =>
      let x := Byte.to_N a in
      [b64_char (x / 4); b64_char ((x mod 4) * 16); b64_pad; b64_pad]
  | [a; b] =>
      let x := Byte.to_N a in
      let y := Byte.to_N b in
      [b64_char (x / 4); b64_char ((x mod 4) * 16 + y / 16);
       b64_char ((y mod 16) * 4); b64_pad]
  | a :: b :: c :: rest =>
      let x := Byte.to_N a in
      let y := Byte.to_N b in
      let z := Byte.to_N c in
      b64_char (x / 4) :: b64_char ((x mod 4) * 16 + y / 16)
        :: b64_char ((y mod 16) * 4 + z / 64) :: b64_char (z mod 64)
        :: b64encode rest
  end.

Definition is_b64_char (c : byte) : bool :=
  Byte.eqb c b64_pad ||
  match b64_index c with
  | Some _ => true
  | None => false
  end.

Definition is_nil {A} (l : list A) : bool :=
  match l with
  | [] => true
  | _ => false
  end.

(** Quanta of four characters; padding is accepted in the last quantum
    only.  [None] stands for [binascii.Error]. *)
Fixpoint b64decode_quanta (cs : list byte) : option (list byte) :=
  match cs with
  | [] => Some []
  | c1 :: c2 :: c3 :: c4 :: rest =>
      match b64_index c1, b64_index c2 with
      | Some i1, Some i2 =>
          let b1 := byte_of_N (i1 * 4 + i2 / 16) in
          if Byte.eqb c3 b64_pad then
            if Byte.eqb c4 b64_pad && is_nil rest then Some [b1] else None
          else
            match b64_index c3 with
            | Some i3 =>
                let b2 := byte_of_N ((i2 mod 16) * 16 + i3 / 4) in
                if Byte.eqb c4 b64_pad then
                  if is_nil rest then Some [b1; b2] else None
                else
                  match b64_index c4 with
                  | Some i4 =>
                      let b3 := byte_of_N ((i3 mod 4) * 64 + i4) in
                      option_map (fun r => b1 :: b2 :: b3 :: r)
                                 (b64decode_quanta rest)
                  | None => None
                  end
            | None => None
            end
      | _, _ => None
      end
  | _ => None
  end.

(** [base64.b64decode(s)] with its default [validate=False]: characters
    outside the alphabet are dropped before the quanta are read.  The
    model is exact on what [b64encode] produces; on other text Python's
    decoder is more lenient about misplaced padding than the model. *)
Definition b64decode (cs : list byte) : option (list byte) :=
  b64decode_quanta (filter is_b64_char cs).

(** [p] holds of every number below [n]. *)
Fixpoint below (n : nat) (p : N -> bool) : bool :=
  match n with
  | O => true
  | S k => p (N.of_nat k) && below k p
  end.

(** What the round trip needs of the character for the sextet [i]. *)
Definition sextet_ok (i : N) : bool :=
  match b64_index (b64_char i) with
  | Some j => j =? i
  | None => false
  end
  && negb (Byte.eqb (b64_char i) b64_pad)
  && (Byte.to_N (b64_char i) <? 128)
  && negb (Byte.to_N (b64_char i) =? 34).

(** Every character [b64encode] writes is a sextet character or the pad. *)
Definition b64_out (c : byte) : Prop :=
  c = b64_pad \/ exists i, i < 64 /\ c = b64_char i.

(* ================================================================= *)
(** ** Python values and exceptions *)

(** What [response.json()] can return.  JSON numbers with a fraction
    become Python floats; they take the same paths through the script
    as [PyInt] (no [get], no [encode]) and are not distinguished. *)
Inductive PyVal : Type :=
| PyNone
| PyBool (b : bool)
| PyInt (n : Z)
| PyStr (s : pystr)
| PyList (l : list PyVal)
| PyDict (d : list (pystr * PyVal)).

Definition type_name (v : PyVal) : pystr :=
  match v with
  | PyNone => lit "NoneType"
  | PyBool _ => lit "bool"
  | PyInt _ => lit "int"
  | PyStr _ => lit "str"
  | PyList _ => lit "list"
  | PyDict _ => lit "dict"
  end.

(** Truth value of an object, as tested by [if v:]. *)
Definition truthy (v : PyVal) : bool :=
  match v with
  | PyNone => false
  | PyBool b => b
  | PyInt n => negb (n =? 0)%Z
  | PyStr s => negb (is_nil s)
  | PyList l => negb (is_nil l)
  | PyDict d => negb (is_nil d)
  end.

Inductive ExcKind : Type :=
| AttributeError
| ValueError
| UnicodeError
| BinasciiError
| JSONDecodeError
| RequestException
| RerunException.

(** A raised exception: its class and the text [str(e)] gives. *)
Record Exc : Type := mkExc { exc_kind : ExcKind; exc_str : pystr }.

(** [except Exception] catches everything but Streamlit's script-control
    exceptions, which derive from [BaseException]. *)
Definition is_Exception (e : Exc) : bool :=
  match exc_kind e with
  | RerunException => false
  | _ => true
  end.

Definition Result (A : Type) : Type := (Exc + A)%type.

Definition ok {A} (a : A) : Result A := inr a.
Definition raise {A} (e : Exc) : Result A := inl e.

Definition no_attribute (v : PyVal) (attr : string) : Exc :=
  mkExc AttributeError
        (lit "'" ++ type_name v ++ lit "' object has no attribute '"
             ++ lit attr ++ lit "'").

Definition is_surrogate (c : N) : bool := (0xD800 <=? c) && (c <? 0xE000).

Definition hex_digit (d : N) : N :=
  if d <? 10 then 48 + d else 87 + d.

Definition hex4 (c : N) : pystr :=
  [hex_digit (c / 4096 mod 16); hex_digit (c / 256 mod 16);
   hex_digit (c / 16 mod 16); hex_digit (c mod 16)].

Definition str_of_N (n : N) : pystr := str_of_int (Z.of_N n).

Fixpoint surrogate_run (s : pystr) : N :=
  match s with
  | c :: s' => if is_surrogate c then 1 + surrogate_run s' else 0
  | [] => 0
  end.

(** The [UnicodeEncodeError] of the UTF-8 codec for the run of
    surrogates that starts at position [pos] with [c]. *)
Definition surrogates_not_allowed (pos : N) (c : N) (rest : pystr) : Exc :=
  let len := 1 + surrogate_run rest in
  mkExc UnicodeError
        (lit "'utf-8' codec can't encode " ++
         (if len =? 1
          then lit "character '\u" ++ hex4 c ++ lit "' in position "
                   ++ str_of_N pos
          else lit "characters in position " ++ str_of_N pos ++ lit "-"
                   ++ str_of_N (pos + len - 1))
         ++ lit ": surrogates not allowed").

Fixpoint first_surrogate (pos : N) (s : pystr) : option Exc :=
  match s with
  | [] => None
  | c :: s' =>
      if is_surrogate c then Some (surrogates_not_allowed pos c s')
      else first_surrogate (pos + 1) s'
  end.

(** [s.encode()]. *)
Definition str_encode (s : pystr) : Result (list byte) :=
  match utf8_encode s with
  | Some bs => ok bs
  | None =>
      match first_surrogate 0 s with
      | Some e => raise e
      | None => raise (mkExc UnicodeError (lit "'utf-8' codec can't encode"))
      end
  end.

(** [v.encode()] on an arbitrary object. *)
Definition py_encode (v : PyVal) : Result (list byte) :=
  match v with
  | PyStr s => str_encode s
  | _ => raise (no_attribute v "encode")
  end.

(** [bs.decode()]. *)
Definition bytes_decode (bs : list byte) : Result pystr :=
  match utf8_decode bs with
  | Some s => ok s
  | None => raise (mkExc UnicodeError (lit "'utf-8' codec can't decode"))
  end.

(** A dictionary built by the JSON parser keeps, for a repeated key, the
    value given last. *)
Fixpoint dict_get (d : list (pystr * PyVal)) (k : pystr) : option PyVal :=
  match d with
  | [] => None
  | (k', v) :: d' =>
      match dict_get d' k with
      | Some w => Some w
      | None => if pystr_eqb k' k then Some v else None
      end
  end.

(** [v.get(key, default)]. *)
Definition py_get (v : PyVal) (key : pystr) (default : PyVal) : Result PyVal :=
  match v with
  | PyDict d =>
      match dict_get d key with
      | Some w => ok w
      | None => ok default
      end
  | _ => raise (no_attribute v "get")
  end.

Definition is_digit (c : N) : bool := (48 <=? c) && (c <=? 57).

Fixpoint digits_value (acc : Z) (s : pystr) : option Z :=
  match s with
  | [] => Some acc
  | c :: s' =>
      if is_digit c then digits_value (10 * acc + (Z.of_N c - 48))%Z s'
      else None
  end.

(** [int(s)] for a string.  Exact on plain decimal literals, which is
    all the selectors can hold; Python additionally accepts surrounding
    blanks, a sign and underscores. *)
Definition py_int (s : pystr) : Result Z :=
  match s with
  | [] => raise (mkExc ValueError
                   (lit "invalid literal for int() with base 10: ''"))
  | _ =>
      match digits_value 0%Z s with
      | Some n => ok n
      | None => raise (mkExc ValueError
                         (lit "invalid literal for int() with base 10: '"
                              ++ s ++ lit "'"))
      end
  end.

Definition ascii_bytes (s : pystr) : Result (list byte) :=
  if forallb (fun c => c <? 128) s then ok (map byte_of_N s)
  else raise (mkExc ValueError
                (lit "string argument should contain only ASCII characters")).

(** [base64.b64decode(s)] for a string argument. *)
Definition py_b64decode (s : pystr) : Result (list byte) :=
  match ascii_bytes s with
  | inl e => raise e
  | inr cs =>
      match b64decode cs with
      | Some bs => ok bs
      | None => raise (mkExc BinasciiError (lit "Incorrect padding"))
      end
  end.

(* ================================================================= *)
(** ** Session state *)

(** A message dictionary.  [role] and [content] are always present;
    [is_markdown] and [visualization] are keys that may be missing. *)
Record Message : Type := mkMessage {
  role : pystr;
  content : PyVal;
  is_markdown : option bool;
  visualization : option pystr
}.

(** [st.session_state.active_agents]: a dictionary with three fixed
    keys, created in this order. *)
Record Agents : Type := mkAgents {
  snowflake_agent : bool;
  rag_agent : bool;
  web_search_agent : bool
}.

(** [active_agents.items()], in insertion order. *)
Definition agent_items (a : Agents) : list (pystr * bool) :=
  [(lit "snowflake_agent", snowflake_agent a);
   (lit "rag_agent", rag_agent a);
   (lit "web_search_agent", web_search_agent a)].

Record Session : Type := mkSession {
  messages : list Message;
  research_document : PyVal;
  active_agents : Agents;
  year : pystr;
  quarter : pystr
}.

(** Lines 12-21 and 61-64: the state of a session that has nothing
    stored yet. *)
Definition initial_session : Session :=
  {| messages := [];
     research_document := PyNone;
     active_agents := mkAgents false false false;
     year := [];
     quarter := [] |}.

Definition set_messages (m : list Message) (s : Session) : Session :=
  mkSession m (research_document s) (active_agents s) (year s) (quarter s).

Definition set_research_document (d : PyVal) (s : Session) : Session :=
  mkSession (messages s) d (active_agents s) (year s) (quarter s).

Definition set_active_agents (a : Agents) (s : Session) : Session :=
  mkSession (messages s) (research_document s) a (year s) (quarter s).

Definition set_year (y : pystr) (s : Session) : Session :=
  mkSession (messages s) (research_document s) (active_agents s) y (quarter s).

Definition set_quarter (q : pystr) (s : Session) : Session :=
  mkSession (messages s) (research_document s) (active_agents s) (year s) q.

(** [st.session_state.messages.append(m)]. *)
Definition append_message (m : Message) (s : Session) : Session :=
  set_messages (messages s ++ [m]) s.

(* ================================================================= *)
(** ** The outside world *)

(** The arguments of [requests.post]. *)
Record Request : Type := mkRequest {
  http_method : pystr;
  url : pystr;
  params : list (pystr * PyVal);
  timeout : Z
}.

(** What the script reads from a response.  [json] is the outcome of
    [response.json()]: the parsed body, or the text of the
    [JSONDecodeError] the parser raises. *)
Record Response : Type := mkResponse {
  status_code : Z;
  text : pystr;
  json : (pystr + PyVal)%type
}.

(** The environment of the script: the variable read at line 9, and the
    remote API, which answers a request or makes [requests.post] raise
    one of its exceptions (connection refused, timeout, ...), given
    here by its text. *)
Record Env : Type := mkEnv {
  FASTAPI_URL : option pystr;
  post : Request -> (pystr + Response)%type
}.

(** [requests.post(url, params=..., timeout=...)]. *)
Definition requests_post (env : Env) (req : Request) : Result Response :=
  match post env req with
  | inl msg => raise (mkExc RequestException msg)
  | inr response => ok response
  end.

(** [response.json()]. *)
Definition response_json (response : Response) : Result PyVal :=
  match json response with
  | inl msg => raise (mkExc JSONDecodeError msg)
  | inr v => ok v
  end.

(** What the widgets hand to one run of the script: the value each
    input widget currently holds in the browser ([None] while the user
    has not touched it), and the two triggers, which are set for the
    run that follows the click or the submission only. *)
Record Inputs : Type := mkInputs {
  held_snowflake : option bool;
  held_rag : option bool;
  held_web : option bool;
  held_year : option nat;
  held_quarter : option nat;
  clear_clicked : bool;
  submitted : option pystr
}.

(** What a run does besides changing the session, in order: the
    elements it draws, what it prints, the request it sends. *)
Inductive Effect : Type :=
| EvCheckbox (label : pystr) (value : bool)
| EvSelectbox (label : pystr) (options : list pystr) (index : nat)
              (disabled : bool)
| EvButton (label : pystr)
| EvChatMessage (name : pystr)
| EvWrite (body : PyVal)
| EvMarkdown (body : PyVal)
| EvHtml (body : pystr)
| EvImage (data : list byte)
| EvInfo (body : pystr)
| EvWarning (body : pystr)
| EvError (body : pystr)
| EvSpinner (body : pystr)
| EvChatInput (placeholder : pystr) (disabled : bool)
| EvSidebarMarkdown (body : pystr)
| EvSidebarHtml (body : pystr)
| EvPrint (label : pystr) (value : PyVal)
| EvPost (req : Request).

(* ----------------------------------------------------------------- *)
(** *** The script monad: session state, effect log, exceptions *)

(** A computation of the script.  Changes to the session made before an
    exception is raised stay made. *)
Definition Script (A : Type) : Type :=
  Session -> Session * list Effect * Result A.

Definition ret {A} (a : A) : Script A := fun s => (s, [], ok a).

Definition bind {A B} (m : Script A) (k : A -> Script B) : Script B :=
  fun s =>
    match m s with
    | (s1, t1, inl e) => (s1, t1, inl e)
    | (s1, t1, inr a) =>
        match k a s1 with
        | (s2, t2, r) => (s2, t1 ++ t2, r)
        end
    end.

Notation "x <- m ;; k" := (bind m (fun x => k))
  (at level 61, m at next level, right associativity).
Notation "m ;;; k" := (bind m (fun _ => k))
  (at level 61, right associativity).

Definition emit (e : Effect) : Script unit := fun s => (s, [e], ok tt).
Definition get : Script Session := fun s => (s, [], ok s).
Definition modify (f : Session -> Session) : Script unit :=
  fun s => (f s, [], ok tt).
Definition throw {A} (e : Exc) : Script A := fun s => (s, [], inl e).
Definition lift {A} (r : Result A) : Script A := fun s => (s, [], r).

(** [try: body except Exception as e: handler(e)]. *)
Definition try_except {A} (body : Script A) (handler : Exc -> Script A)
  : Script A :=
  fun s =>
    match body s with
    | (s1, t1, inl e) =>
        if is_Exception e then
          match handler e s1 with
          | (s2, t2, r) => (s2, t1 ++ t2, r)
          end
        else (s1, t1, inl e)
    | done => done
    end.

(** [for x in xs: body(x)]. *)
Fixpoint for_each {A} (xs : list A) (body : A -> Script unit) : Script unit :=
  match xs with
  | [] => ret tt
  | x :: xs' => body x ;;; for_each xs' body
  end.

(* ----------------------------------------------------------------- *)
(** *** Streamlit's widgets *)

(** What a checkbox holds: what the user set, its [value] argument
    before that. *)
Definition checked (value : bool) (held : option bool) : bool :=
  match held with
  | Some b => b
  | None => value
  end.

(** What a selector holds: the option the user chose, [options[index]]
    before that. *)
Definition selected (options : list pystr) (index : nat) (held : option nat)
  : pystr :=
  match held with
  | Some i => nth i options (nth index options [])
  | None => nth index options []
  end.

(** [st.checkbox(label, value=v)]. *)
Definition checkbox (label : pystr) (value : bool) (held : option bool)
  : Script bool :=
  emit (EvCheckbox label value) ;;;
  ret (checked value held).

(** [st.selectbox(label, options, index, disabled)]: the option the
    widget holds, [options[index]] while the user has not chosen.
    Streamlit identifies a widget by its type, label, options, index,
    help text and key; label visibility and disabling do not affect
    the identity.  The two calls at lines 70 and 77 therefore build
    the same widget, and [disabled] only stops the browser from taking
    a new choice: the value the widget holds is returned whether or
    not it is drawn disabled. *)
Definition selectbox (label : pystr) (options : list pystr) (index : nat)
           (disabled : bool) (held : option nat) : Script pystr :=
  emit (EvSelectbox label options index disabled) ;;;
  ret (selected options index held).

(** [st.button(label)]: true in the run that follows a click. *)
Definition button (label : pystr) (clicked : bool) : Script bool :=
  emit (EvButton label) ;;; ret clicked.

(** [st.chat_input(placeholder)]: the submitted text in the run that
    follows a submission, [None] otherwise. *)
Definition chat_input (placeholder : pystr) (submitted : option pystr)
  : Script (option pystr) :=
  emit (EvChatInput placeholder false) ;;; ret submitted.

(** [st.chat_input(placeholder, disabled=True)], result unused. *)
Definition chat_input_disabled (placeholder : pystr) : Script unit :=
  emit (EvChatInput placeholder true).

(** [st.rerun()]. *)
Definition rerun {A} : Script A :=
  throw (mkExc RerunException []).

(* ================================================================= *)
(** ** The script *)

Definition year_options : list pystr :=
  [lit "None"; lit "2022"; lit "2023"; lit "2024"; lit "2025"].

Definition quarter_options : list pystr :=
  [lit "None"; lit "1"; lit "2"; lit "3"; lit "4"].

(** Lines 41-57: each flag is overwritten with what its checkbox
    returns. *)
Definition toggle_agents (inp : Inputs) : Script unit :=
  s <- get ;;
  v <- checkbox (lit "Snowflake Agent (Valuation Measures)")
                (snowflake_agent (active_agents s)) (held_snowflake inp) ;;
  modify (fun s => set_active_agents
            (mkAgents v (rag_agent (active_agents s))
                      (web_search_agent (active_agents s))) s) ;;;
  s <- get ;;
  v <- checkbox (lit "RAG Agent (10-K/Q Reports)")
                (rag_agent (active_agents s)) (held_rag inp) ;;
  modify (fun s => set_active_agents
            (mkAgents (snowflake_agent (active_agents s)) v
                      (web_search_agent (active_agents s))) s) ;;;
  s <- get ;;
  v <- checkbox (lit "Web Search Agent (Tavily)")
                (web_search_agent (active_agents s)) (held_web inp) ;;
  modify (fun s => set_active_agents
            (mkAgents (snowflake_agent (active_agents s))
                      (rag_agent (active_agents s)) v) s).

(** Lines 66-81: the fiscal year, then the fiscal quarter, drawn
    disabled when the year is ["None"]. *)
Definition set_filters (inp : Inputs) : Script unit :=
  y <- selectbox (lit "Fiscal Year") year_options 1 false (held_year inp) ;;
  modify (set_year y) ;;;
  s <- get ;;
  if pystr_eqb (year s) (lit "None") then
    q <- selectbox (lit "Fiscal Quarter") quarter_options 0 true
                   (held_quarter inp) ;;
    modify (set_quarter q)
  else
    q <- selectbox (lit "Fiscal Quarter") quarter_options 0 false
                   (held_quarter inp) ;;
    modify (set_quarter q).

(** Lines 84-86: the body of the Clear Conversation button. *)
Definition clear_session : Script unit :=
  modify (set_messages []) ;;;
  modify (set_research_document PyNone) ;;;
  rerun.

(** Lines 26-86.  The headings and explanatory texts of the sidebar are
    constant and are not logged. *)
Definition sidebar (inp : Inputs) : Script unit :=
  toggle_agents inp ;;;
  set_filters inp ;;;
  c <- button (lit "Clear Conversation") (clear_clicked inp) ;;
  if c then clear_session else ret tt.

(** Lines 93-102. *)
Definition get_download_link (file_content : PyVal) (file_name : pystr)
  : Result pystr :=
  match py_encode file_content with
  | inl e => raise e
  | inr bs =>
      match bytes_decode (b64encode bs) with
      | inl e => raise e
      | inr b64 =>
          ok (lit "<a href=" ++ dq ++ lit "data:file/markdown;base64," ++ b64
                  ++ dq ++ lit " download=" ++ dq ++ file_name ++ dq
                  ++ lit ">Download " ++ file_name ++ lit "</a>")
      end
  end.

(** Lines 107-119: one message of the transcript. *)
Definition render_message (message : Message) : Script unit :=
  emit (EvChatMessage (role message)) ;;;
  if pystr_eqb (role message) (lit "assistant")
     && match is_markdown message with Some b => b | None => false end
  then
    emit (EvMarkdown (content message)) ;;;
    match visualization message with
    | Some v => data <- lift (py_b64decode v) ;; emit (EvImage data)
    | None => ret tt
    end
  else emit (EvWrite (content message)).

(** Lines 122-124. *)
Definition active_agent_names (a : Agents) : list pystr :=
  map fst (filter snd (agent_items a)).

(** Lines 125-128. *)
Definition show_active_agents (names : list pystr) : Script unit :=
  if negb (is_nil names)
  then emit (EvInfo (lit "Active agents: " ++ join (lit ", ") names))
  else emit (EvWarning
    (lit "No agents selected. Please enable at least one agent in the sidebar.")).

(** [f"{FASTAPI_URL}"]: an unset variable prints as [None]. *)
Definition format_url (u : option pystr) : pystr :=
  match u with
  | Some s => s
  | None => lit "None"
  end.

(** [None if v == "None" else int(v)], lines 161-170. *)
Definition filter_param (v : pystr) : Result PyVal :=
  if pystr_eqb v (lit "None") then ok PyNone
  else match py_int v with
       | inl e => raise e
       | inr n => ok (PyInt n)
       end.

(** Lines 148-173: the arguments handed to [requests.post]. *)
Definition chat_request (env : Env) (prompt : pystr) (s : Session)
  : Result Request :=
  match filter_param (year s) with
  | inl e => raise e
  | inr y =>
      match filter_param (quarter s) with
      | inl e => raise e
      | inr q =>
          ok {| http_method := lit "POST";
                url := format_url (FASTAPI_URL env) ++ lit "/chat";
                params :=
                  [(lit "message", PyStr prompt);
                   (lit "snowflake_agent",
                    PyBool (snowflake_agent (active_agents s)));
                   (lit "pinecone_agent",
                    PyBool (rag_agent (active_agents s)));
                   (lit "websearch_agent",
                    PyBool (web_search_agent (active_agents s)));
                   (lit "year", y);
                   (lit "quarter", q)];
                timeout := 120 |}
      end
  end.

(** Lines 175-211: the branch for status 200.  Drawing and printing
    are taken not to raise. *)
Definition on_success (response : Response) : Script unit :=
  shown <- lift (response_json response) ;;
  emit (EvPrint (lit "Response: ") shown) ;;;
  body <- lift (response_json response) ;;
  research_document <- lift (py_get body (lit "report") (PyStr [])) ;;
  modify (set_research_document research_document) ;;;
  emit (EvMarkdown research_document) ;;;
  link <- lift (get_download_link research_document
                                  (lit "Research_Document.md")) ;;
  emit (EvHtml link) ;;;
  let message_data :=
    {| role := lit "assistant";
       content := research_document;
       is_markdown := Some true;
       visualization := None |} in
  modify (append_message message_data).

(** Lines 212-220: any other status. *)
Definition on_failure (response : Response) : Script unit :=
  emit (EvError (lit "Error: " ++ str_of_int (status_code response)
                     ++ lit " - " ++ text response)) ;;;
  modify (append_message
    {| role := lit "assistant";
       content := PyStr
         (lit "Error: Unable to generate research document. Status code: "
              ++ str_of_int (status_code response));
       is_markdown := Some false;
       visualization := None |}).

(** Lines 221-229: the handler of [except Exception as e]. *)
Definition on_exception (e : Exc) : Script unit :=
  emit (EvError (lit "Error connecting to API: " ++ exc_str e)) ;;;
  modify (append_message
    {| role := lit "assistant";
       content := PyStr
         (lit "Error: Unable to connect to the research API. " ++ exc_str e);
       is_markdown := Some false;
       visualization := None |}).

(** Lines 148-220: the body of the [try]. *)
Definition attempt (env : Env) (prompt : pystr) : Script unit :=
  s <- get ;;
  req <- lift (chat_request env prompt s) ;;
  emit (EvPost req) ;;;
  response <- lift (requests_post env req) ;;
  if (status_code response =? 200)%Z
  then on_success response
  else on_failure response.

(** Lines 134-229: what a submitted prompt sets off. *)
Definition submit_query (env : Env) (names : list pystr) (prompt : pystr)
  : Script unit :=
  modify (append_message
    {| role := lit "user"; content := PyStr prompt;
       is_markdown := None; visualization := None |}) ;;;
  emit (EvChatMessage (lit "user")) ;;;
  emit (EvWrite (PyStr prompt)) ;;;
  emit (EvChatMessage (lit "assistant")) ;;;
  emit (EvSpinner (lit "Generating research document using "
                       ++ join (lit ", ") names ++ lit " agents...")) ;;;
  try_except (attempt env prompt) on_exception.

(** Lines 132-231. *)
Definition chat (env : Env) (inp : Inputs) (names : list pystr) : Script unit :=
  if (0 <? List.length names)%nat then
    prompt <- chat_input (lit "Ask a question about NVIDIA...")
                         (submitted inp) ;;
    match prompt with
    | Some p => if negb (is_nil p) then submit_query env names p else ret tt
    | None => ret tt
    end
  else
    chat_input_disabled (lit "Please select at least one agent to continue...").

(** Lines 234-239. *)
Definition latest_download : Script unit :=
  s <- get ;;
  if truthy (research_document s) then
    emit (EvSidebarMarkdown (lit "### Download Latest Research")) ;;;
    link <- lift (get_download_link (research_document s)
                                    (lit "Research_Document.md")) ;;
    emit (EvSidebarHtml link)
  else ret tt.

(** Lines 105-239: the page below the sidebar. *)
Definition main_page (env : Env) (inp : Inputs) : Script unit :=
  s <- get ;;
  for_each (messages s) render_message ;;;
  s <- get ;;
  let names := active_agent_names (active_agents s) in
  show_active_agents names ;;;
  chat env inp names ;;;
  latest_download.

(** One execution of [app.py], top to bottom. *)
Definition app (env : Env) (inp : Inputs) : Script unit :=
  sidebar inp ;;; main_page env inp.

(** The inputs of the execution that [st.rerun()] starts: the widgets
    hold what they held, the triggers are spent. *)
Definition settled (inp : Inputs) : Inputs :=
  {| held_snowflake := held_snowflake inp;
     held_rag := held_rag inp;
     held_web := held_web inp;
     held_year := held_year inp;
     held_quarter := held_quarter inp;
     clear_clicked := false;
     submitted := None |}.

Definition is_rerun (e : Exc) : bool :=
  match exc_kind e with
  | RerunException => true
  | _ => false
  end.

(** What Streamlit does with one user event: it executes the script,
    and executes it again when the script asks for a rerun. *)
Definition run (env : Env) (inp : Inputs) (s : Session)
  : Session * list Effect * Result unit :=
  match app env inp s with
  | (s1, t1, inl e) =>
      if is_rerun e then
        match app env (settled inp) s1 with
        | (s2, t2, r) => (s2, t1 ++ t2, r)
        end
      else (s1, t1, inl e)
  | done => done
  end.

(* ================================================================= *)
(** ** The user in front of the page *)

Inductive AgentName : Type := Snowflake | Rag | WebSearch.

(** What a user can do to the page. *)
Inductive Action : Type :=
| Tick (name : AgentName) (enabled : bool)
| PickYear (i : nat)
| PickQuarter (i : nat)
| ClickClear
| Submit (prompt : pystr).

(** A browser tab: what the widgets hold, what the last run drew, and
    the server-side session. *)
Record Browser : Type := mkBrowser {
  held : Inputs;
  page : list Effect;
  session : Session
}.

(** Whether the quarter selector was last drawn disabled (or not drawn
    at all). *)
Definition quarter_disabled (page : list Effect) : bool :=
  fold_left
    (fun acc e =>
       match e with
       | EvSelectbox label _ _ d =>
           if pystr_eqb label (lit "Fiscal Quarter") then d else acc
       | _ => acc
       end) page true.

Definition chat_flag (acc : bool) (e : Effect) : bool :=
  match e with
  | EvChatInput _ d => d
  | _ => acc
  end.

(** Whether the chat input was last drawn disabled (or not drawn at
    all). *)
Definition chat_disabled (page : list Effect) : bool :=
  fold_left chat_flag page true.

Definition hold_agent (name : AgentName) (v : bool) (inp : Inputs) : Inputs :=
  match name with
  | Snowflake =>
      mkInputs (Some v) (held_rag inp) (held_web inp) (held_year inp)
               (held_quarter inp) (clear_clicked inp) (submitted inp)
  | Rag =>
      mkInputs (held_snowflake inp) (Some v) (held_web inp) (held_year inp)
               (held_quarter inp) (clear_clicked inp) (submitted inp)
  | WebSearch =>
      mkInputs (held_snowflake inp) (held_rag inp) (Some v) (held_year inp)
               (held_quarter inp) (clear_clicked inp) (submitted inp)
  end.

Definition hold_year (i : nat) (inp : Inputs) : Inputs :=
  mkInputs (held_snowflake inp) (held_rag inp) (held_web inp) (Some i)
           (held_quarter inp) (clear_clicked inp) (submitted inp).

Definition hold_quarter (i : nat) (inp : Inputs) : Inputs :=
  mkInputs (held_snowflake inp) (held_rag inp) (held_web inp) (held_year inp)
           (Some i) (clear_clicked inp) (submitted inp).

Definition click_clear (inp : Inputs) : Inputs :=
  mkInputs (held_snowflake inp) (held_rag inp) (held_web inp) (held_year inp)
           (held_quarter inp) true (submitted inp).

Definition type_prompt (p : pystr) (inp : Inputs) : Inputs :=
  mkInputs (held_snowflake inp) (held_rag inp) (held_web inp) (held_year inp)
           (held_quarter inp) (clear_clicked inp) (Some p).

(** The inputs of the run an action sets off; [None] when the page
    does not take the action: a disabled widget, an option that is not
    in the list, an empty prompt. *)
Definition fire (a : Action) (b : Browser) : option Inputs :=
  match a with
  | Tick name v => Some (hold_agent name v (held b))
  | PickYear i =>
      if (i <? List.length year_options)%nat
      then Some (hold_year i (held b)) else None
  | PickQuarter i =>
      if negb (quarter_disabled (page b))
         && (i <? List.length quarter_options)%nat
      then Some (hold_quarter i (held b)) else None
  | ClickClear => Some (click_clear (held b))
  | Submit p =>
      if negb (chat_disabled (page b)) && negb (is_nil p)
      then Some (type_prompt p (held b)) else None
  end.

Definition interact (env : Env) (a : Action) (b : Browser) : Browser :=
  match fire a b with
  | None => b
  | Some inp =>
      match run env inp (session b) with
      | (s, t, _) => {| held := settled inp; page := t; session := s |}
      end
  end.

Definition untouched : Inputs :=
  mkInputs None None None None None false None.

(** The first load of the page. *)
Definition open_page (env : Env) : Browser :=
  match run env untouched initial_session with
  | (s, t, _) => {| held := untouched; page := t; session := s |}
  end.

Definition interactions (env : Env) (acts : list Action) (b : Browser)
  : Browser :=
  fold_left (fun b a => interact env a b) acts b.

(** The payload of a download link: what stands between the fixed
    opening of the anchor and the next double quote. *)
Fixpoint until_quote (s : pystr) : pystr :=
  match s with
  | [] => []
  | c :: s' => if c =? 34 then [] else c :: until_quote s'
  end.

Definition link_payload (href : pystr) : pystr :=
  until_quote
    (skipn (List.length (lit "<a href=" ++ dq ++ lit "data:file/markdown;base64,"))
           href).

(** Reading an exported link back: the payload, base64-decoded, then
    decoded as UTF-8. *)
Definition read_link (href : pystr) : Result pystr :=
  match py_b64decode (link_payload href) with
  | inl e => raise e
  | inr bs => bytes_decode bs
  end.

(* ================================================================= *)
(** ** Observations on a run *)

Definition final_session {A} (o : Session * list Effect * Result A) : Session :=
  fst (fst o).

Definition effects {A} (o : Session * list Effect * Result A) : list Effect :=
  snd (fst o).

Definition result {A} (o : Session * list Effect * Result A) : Result A :=
  snd o.

(** The requests a run sent, in order. *)
Definition requests_sent (t : list Effect) : list Request :=
  flat_map (fun e => match e with EvPost req => [req] | _ => [] end) t.

(** The error banners a run drew. *)
Definition banners (t : list Effect) : list pystr :=
  flat_map (fun e => match e with EvError body => [body] | _ => [] end) t.

(** The message line 135 appends. *)
Definition user_message (prompt : pystr) : Message :=
  {| role := lit "user"; content := PyStr prompt;
     is_markdown := None; visualization := None |}.

(** Whether the text of a message contains [needle]. *)
Definition mentions (needle : pystr) (m : Message) : bool :=
  match content m with
  | PyStr body => contains needle body
  | _ => false
  end.

(** The flags after lines 41-57. *)
Definition agents_after (inp : Inputs) (a : Agents) : Agents :=
  {| snowflake_agent := checked (snowflake_agent a) (held_snowflake inp);
     rag_agent := checked (rag_agent a) (held_rag inp);
     web_search_agent := checked (web_search_agent a) (held_web inp) |}.

(** The session after lines 41-81. *)
Definition configured (inp : Inputs) (s : Session) : Session :=
  {| messages := messages s;
     research_document := research_document s;
     active_agents := agents_after inp (active_agents s);
     year := selected year_options 1 (held_year inp);
     quarter := selected quarter_options 0 (held_quarter inp) |}.

(** The session after lines 84-85. *)
Definition cleared (s : Session) : Session :=
  set_research_document PyNone (set_messages [] s).

(** The images a run drew. *)
Definition images (t : list Effect) : list (list byte) :=
  flat_map (fun e => match e with EvImage data => [data] | _ => [] end) t.

(** What lines 41-83 draw. *)
Definition sidebar_drawn (inp : Inputs) (s : Session) : list Effect :=
  [EvCheckbox (lit "Snowflake Agent (Valuation Measures)")
              (snowflake_agent (active_agents s));
   EvCheckbox (lit "RAG Agent (10-K/Q Reports)") (rag_agent (active_agents s));
   EvCheckbox (lit "Web Search Agent (Tavily)")
              (web_search_agent (active_agents s));
   EvSelectbox (lit "Fiscal Year") year_options 1 false;
   EvSelectbox (lit "Fiscal Quarter") quarter_options 0
               (pystr_eqb (selected year_options 1 (held_year inp)) (lit "None"));
   EvButton (lit "Clear Conversation")].

Definition ask : pystr := lit "Ask a question about NVIDIA...".

(** An outcome that left the session [s] as it was, sent nothing, drew
    no chat input and, if it failed, failed with an [Exception]. *)
Definition inert {A} (o : Session * list Effect * Result A) (s : Session) : Prop :=
  final_session o = s /\
  requests_sent (effects o) = [] /\
  (forall acc, fold_left chat_flag (effects o) acc = acc) /\
  (forall e, result o = inl e -> is_Exception e = true).

(** [emits P m]: every effect of [m] satisfies [P]. *)
Definition emits {A} (P : Effect -> Prop) (m : Script A) : Prop :=
  forall s, Forall P (effects (m s)).

(** [keeps R m]: the session [m] ends in is related by [R] to the one
    it starts in. *)
Definition keeps {A} (R : Session -> Session -> Prop) (m : Script A) : Prop :=
  forall s, R s (final_session (m s)).

(** The settings of a session: the flags and the two filters. *)
Definition same_settings (s s' : Session) : Prop :=
  active_agents s' = active_agents s /\ year s' = year s /\ quarter s' = quarter s.

Definition not_a_post (e : Effect) : Prop :=
  match e with
  | EvPost _ => False
  | _ => True
  end.

Definition not_a_chat_input (e : Effect) : Prop :=
  match e with
  | EvChatInput _ _ => False
  | _ => True
  end.

(** What lines 125-128 draw. *)
Definition agents_banner (names : list pystr) : list Effect :=
  if negb (is_nil names)
  then [EvInfo (lit "Active agents: " ++ join (lit ", ") names)]
  else [EvWarning
    (lit "No agents selected. Please enable at least one agent in the sidebar.")].

(** The value sent for the option at position [i] of a selector whose
    first option is ["None"] and whose other options are the integers
    [offset + 1], [offset + 2], ... *)
Definition fiscal_param (offset : Z) (i : nat) : PyVal :=
  match i with
  | O => PyNone
  | S _ => PyInt (offset + Z.of_nat i)
  end.

(** The request built for a session whose filters hold options. *)
Definition chat_post (base prompt : pystr) (a : Agents) (i j : nat) : Request :=
  {| http_method := lit "POST";
     url := base ++ lit "/chat";
     params :=
       [(lit "message", PyStr prompt);
        (lit "snowflake_agent", PyBool (snowflake_agent a));
        (lit "pinecone_agent", PyBool (rag_agent a));
        (lit "websearch_agent", PyBool (web_search_agent a));
        (lit "year", fiscal_param 2021 i);
        (lit "quarter", fiscal_param 0 j)];
     timeout := 120 |}.


(** What the handler draws before the reply. *)
Definition prologue (names : list pystr) (prompt : pystr) (req : Request)
  : list Effect :=
  [EvChatMessage (lit "user"); EvWrite (PyStr prompt);
   EvChatMessage (lit "assistant");
   EvSpinner (lit "Generating research document using "
                  ++ join (lit ", ") names ++ lit " agents...");
   EvPost req].

(** The reply line 214 records for a status other than 200. *)
Definition status_reply (code : Z) : Message :=
  {| role := lit "assistant";
     content := PyStr
       (lit "Error: Unable to generate research document. Status code: "
            ++ str_of_int code);
     is_markdown := Some false;
     visualization := None |}.

(** The reply line 223 records for an exception whose text is [msg]. *)
Definition connection_reply (msg : pystr) : Message :=
  {| role := lit "assistant";
     content := PyStr
       (lit "Error: Unable to connect to the research API. " ++ msg);
     is_markdown := Some false;
     visualization := None |}.

(** The reply line 211 records for a report. *)
Definition report_reply (report : PyVal) : Message :=
  {| role := lit "assistant";
     content := report;
     is_markdown := Some true;
     visualization := None |}.

(* ================================================================= *)
(** ** Scenarios *)

Definition base_url : pystr := lit "http://localhost:8000".

(** An API that answers every request with the same response. *)
Definition api_answers (code : Z) (body : pystr) (parsed : pystr + PyVal)
  : Env :=
  {| FASTAPI_URL := Some base_url;
     post := fun _ => inr (mkResponse code body parsed) |}.

Definition not_json : (pystr + PyVal)%type :=
  inl (lit "Expecting value: line 1 column 1 (char 0)").

Definition api_500 : Env := api_answers 500 (lit "internal error") not_json.

Definition api_html : Env := api_answers 200 (lit "<html>ok</html>") not_json.

Definition api_empty_object : Env := api_answers 200 (lit "{}") (inr (PyDict [])).

(** A JSON member with a string value, as text. *)
Definition member_text (key value : pystr) : pystr :=
  dq ++ key ++ dq ++ lit ": " ++ dq ++ value ++ dq.

Definition revenue_fields : list (pystr * PyVal) :=
  [(lit "report", PyStr (lit "# Revenue"))].

Definition api_revenue : Env :=
  api_answers 200
    (lit "{" ++ member_text (lit "report") (lit "# Revenue") ++ lit "}")
    (inr (PyDict revenue_fields)).

Definition chart_fields : list (pystr * PyVal) :=
  [(lit "report", PyStr (lit "# Revenue"));
   (lit "visualization", PyStr (lit "iVBORw0KGgo="))].

Definition api_revenue_chart : Env :=
  api_answers 200
    (lit "{" ++ member_text (lit "report") (lit "# Revenue") ++ lit ", "
         ++ member_text (lit "visualization") (lit "iVBORw0KGgo=") ++ lit "}")
    (inr (PyDict chart_fields)).

(** Retrieval agent only, fiscal 2023, second quarter. *)
Definition retrieval_2023_q2 : Session :=
  {| messages := [];
     research_document := PyNone;
     active_agents := mkAgents false true false;
     year := lit "2023";
     quarter := lit "2" |}.

Definition revenue_question : pystr := lit "What was NVIDIA's revenue?".

(** The retrieval agent ticked, fiscal 2023 and the second quarter
    picked, the question submitted. *)
Definition asking : Inputs :=
  {| held_snowflake := None;
     held_rag := Some true;
     held_web := None;
     held_year := Some 2%nat;
     held_quarter := Some 2%nat;
     clear_clicked := false;
     submitted := Some revenue_question |}.

Definition revenue_request : Request :=
  {| http_method := lit "POST";
     url := base_url ++ lit "/chat";
     params :=
       [(lit "message", PyStr revenue_question);
        (lit "snowflake_agent", PyBool false);
        (lit "pinecone_agent", PyBool true);
        (lit "websearch_agent", PyBool false);
        (lit "year", PyInt 2023);
        (lit "quarter", PyInt 2)];
     timeout := 120 |}.

(* ================================================================= *)
(** ** Further scenarios and observations *)

(** An API that cannot be reached: [requests.post] raises. *)
Definition api_down : Env :=
  {| FASTAPI_URL := Some base_url;
     post := fun _ => inl (lit "Connection refused") |}.

(** The environment variable of line 9 is not set. *)
Definition api_unset : Env :=
  {| FASTAPI_URL := None;
     post := fun _ => inl (lit "Invalid URL 'None/chat': No scheme supplied.") |}.

(** An API that answers with a JSON object whose [report] is [v]. *)
Definition api_reports (v : PyVal) : Env :=
  api_answers 200 (lit "{...}") (inr (PyDict [(lit "report", v)])).



(** A transcript as the script builds it: exchanges of one user
    message and one assistant reply, none with a visualization. *)
Inductive exchanges : list Message -> Prop :=
| no_exchange : exchanges []
| one_more (ms : list Message) (prompt : pystr) (reply : Message) :
    exchanges ms ->
    role reply = lit "assistant" ->
    visualization reply = None ->
    exchanges (ms ++ [user_message prompt; reply]).

(** What lines 107-119 draw for a message without a visualization. *)
Definition drawn (m : Message) : list Effect :=
  [EvChatMessage (role m);
   if pystr_eqb (role m) (lit "assistant")
      && match is_markdown m with Some b => b | None => false end
   then EvMarkdown (content m)
   else EvWrite (content m)].


Definition not_a_selectbox (e : Effect) : Prop :=
  match e with
  | EvSelectbox _ _ _ _ => False
  | _ => True
  end.

Definition quarter_flag (acc : bool) (e : Effect) : bool :=
  match e with
  | EvSelectbox label _ _ d =>
      if pystr_eqb label (lit "Fiscal Quarter") then d else acc
  | _ => acc
  end.

(** The opening of the anchor [get_download_link] writes. *)
Definition anchor_opening : pystr :=
  lit "<a href=" ++ dq ++ lit "data:file/markdown;base64,".

(** The rest of the anchor, after the payload. *)
Definition anchor_closing (file_name : pystr) : pystr :=
  dq ++ lit " download=" ++ dq ++ file_name ++ dq
     ++ lit ">Download " ++ file_name ++ lit "</a>".

(** What holds of a browser tab reached from a freshly opened page:
    the triggers are spent, the session's settings are what the
    widgets hold, the transcript is a sequence of exchanges, and the
    two inputs that can be disabled are drawn as the session says. *)
Definition settled_page (b : Browser) : Prop :=
  clear_clicked (held b) = false /\
  submitted (held b) = None /\
  active_agents (session b)
  = agents_after (held b) (active_agents (session b)) /\
  year (session b) = selected year_options 1 (held_year (held b)) /\
  quarter (session b) = selected quarter_options 0 (held_quarter (held b)) /\
  exchanges (messages (session b)) /\
  chat_disabled (page b)
  = is_nil (active_agent_names (active_agents (session b))) /\
  quarter_disabled (page b) = pystr_eqb (year (session b)) (lit "None").

(* ================================================================= *)
(** * Proofs *)

(** ** Bytes, base64 and UTF-8 *)

Ltac euclid := zify; Z.to_euclidean_division_equations; lia.

Lemma to_N_byte_of_N (n : N) : n < 256 -> Byte.to_N (byte_of_N n) = n.
Proof.
  intros Hn. unfold byte_of_N.
  destruct (Byte.of_N n) as [b|] eqn:E.
  - now apply Byte.to_of_N.
  - apply Byte.of_N_None_iff in E. lia.
Qed.

Lemma byte_of_N_to_N (b : byte) : byte_of_N (Byte.to_N b) = b.
Proof. unfold byte_of_N. now rewrite Byte.of_to_N. Qed.

Lemma to_N_lt (b : byte) : Byte.to_N b < 256.
Proof. pose proof (Byte.to_N_bounded b). lia. Qed.

Lemma byte_of_N_eq (n : N) (b : byte) : n = Byte.to_N b -> byte_of_N n = b.
Proof. intros ->. apply byte_of_N_to_N. Qed.

Lemma below_spec (n : nat) (p : N -> bool) :
  below n p = true -> forall i, i < N.of_nat n -> p i = true.
Proof.
  induction n as [|k IH]; simpl; intros H i Hi.
  - lia.
  - apply andb_true_iff in H as [Hk Hr].
    destruct (N.eq_dec i (N.of_nat k)) as [->|Hne]; [exact Hk|].
    apply IH; [exact Hr|lia].
Qed.

Lemma sextets_ok : forall i, i < 64 -> sextet_ok i = true.
Proof. apply (below_spec 64). vm_compute. reflexivity. Qed.

Lemma b64_index_char (i : N) : i < 64 -> b64_index (b64_char i) = Some i.
Proof.
  intros H. pose proof (sextets_ok i H) as Hs. unfold sextet_ok in Hs.
  repeat (apply andb_true_iff in Hs as [Hs ?]).
  destruct (b64_index (b64_char i)) as [j|]; [|discriminate].
  apply N.eqb_eq in Hs. now subst.
Qed.

Lemma b64_char_not_pad (i : N) : i < 64 -> Byte.eqb (b64_char i) b64_pad = false.
Proof.
  intros H. pose proof (sextets_ok i H) as Hs. unfold sextet_ok in Hs.
  repeat (apply andb_true_iff in Hs as [Hs ?]).
  now apply negb_true_iff.
Qed.

Lemma b64_char_ascii (i : N) : i < 64 -> Byte.to_N (b64_char i) < 128.
Proof.
  intros H. pose proof (sextets_ok i H) as Hs. unfold sextet_ok in Hs.
  repeat (apply andb_true_iff in Hs as [Hs ?]).
  now apply N.ltb_lt.
Qed.

Lemma b64_char_not_quote (i : N) : i < 64 -> Byte.to_N (b64_char i) <> 34.
Proof.
  intros H. pose proof (sextets_ok i H) as Hs. unfold sextet_ok in Hs.
  repeat (apply andb_true_iff in Hs as [Hs ?]).
  apply N.eqb_neq. now apply negb_true_iff.
Qed.

Lemma list_ind3 {A} (P : list A -> Prop) :
  P [] -> (forall a, P [a]) -> (forall a b, P [a; b]) ->
  (forall a b c l, P l -> P (a :: b :: c :: l)) ->
  forall l, P l.
Proof.
  intros H0 H1 H2 H3.
  assert (H : forall l, P l /\ (forall a, P (a :: l)) /\ (forall a b, P (a :: b :: l))).
  { induction l as [|x l [IH0 [IH1 IH2]]].
    - repeat split; auto.
    - repeat split; auto. }
  intros l. apply H.
Qed.

Lemma b64decode_quanta_encode (bs : list byte) :
  b64decode_quanta (b64encode bs) = Some bs.
Proof.
  induction bs as [|a|a b|a b c rest IH] using list_ind3.
  - reflexivity.
  - pose proof (to_N_lt a).
    cbn [b64encode b64decode_quanta].
    rewrite !b64_index_char by euclid.
    cbn. f_equal. f_equal. apply byte_of_N_eq. euclid.
  - pose proof (to_N_lt a). pose proof (to_N_lt b).
    cbn [b64encode b64decode_quanta].
    rewrite !b64_index_char by euclid.
    rewrite b64_char_not_pad by euclid.
    cbn. f_equal. f_equal; [|f_equal]; apply byte_of_N_eq; euclid.
  - pose proof (to_N_lt a). pose proof (to_N_lt b). pose proof (to_N_lt c).
    cbn [b64encode b64decode_quanta].
    rewrite !b64_index_char by euclid.
    rewrite !b64_char_not_pad by euclid.
    rewrite IH. cbn [option_map].
    f_equal. f_equal; [|f_equal; [|f_equal]]; apply byte_of_N_eq; euclid.
Qed.

Lemma b64encode_out (bs : list byte) : Forall b64_out (b64encode bs).
Proof.
  assert (S : forall i, i < 64 -> b64_out (b64_char i)).
  { intros i Hi. right. now exists i. }
  assert (Pd : b64_out b64_pad) by now left.
  induction bs as [|a|a b|a b c rest IH] using list_ind3.
  - constructor.
  - pose proof (to_N_lt a).
    cbn [b64encode].
    repeat (apply Forall_cons; [first [exact Pd | apply S; euclid]|]).
    constructor.
  - pose proof (to_N_lt a). pose proof (to_N_lt b).
    cbn [b64encode].
    repeat (apply Forall_cons; [first [exact Pd | apply S; euclid]|]).
    constructor.
  - pose proof (to_N_lt a). pose proof (to_N_lt b). pose proof (to_N_lt c).
    cbn [b64encode]. repeat (apply Forall_cons; [apply S; euclid|]). exact IH.
Qed.

Lemma b64_out_kept (c : byte) : b64_out c -> is_b64_char c = true.
Proof.
  intros [->|[i [Hi ->]]]; unfold is_b64_char.
  - reflexivity.
  - rewrite b64_index_char by exact Hi. apply orb_true_r.
Qed.

Lemma b64_out_ascii (c : byte) : b64_out c -> Byte.to_N c < 128.
Proof.
  intros [->|[i [Hi ->]]].
  - vm_compute. reflexivity.
  - now apply b64_char_ascii.
Qed.

Lemma b64_out_not_quote (c : byte) : b64_out c -> Byte.to_N c <> 34.
Proof.
  intros [->|[i [Hi ->]]].
  - vm_compute. discriminate.
  - now apply b64_char_not_quote.
Qed.

Lemma filter_all {A} (p : A -> bool) (l : list A) :
  Forall (fun x => p x = true) l -> filter p l = l.
Proof.
  induction 1 as [|x l Hx _ IH]; simpl; [reflexivity|].
  now rewrite Hx, IH.
Qed.

Lemma b64decode_b64encode (bs : list byte) : b64decode (b64encode bs) = Some bs.
Proof.
  unfold b64decode. rewrite filter_all.
  - apply b64decode_quanta_encode.
  - eapply Forall_impl; [|apply b64encode_out]. apply b64_out_kept.
Qed.

Lemma ascii_bytes_of_bytes (bs : list byte) :
  Forall (fun b => Byte.to_N b < 128) bs ->
  ascii_bytes (map Byte.to_N bs) = ok bs.
Proof.
  intros H. unfold ascii_bytes.
  replace (forallb (fun c => c <? 128) (map Byte.to_N bs)) with true.
  - rewrite map_map. f_equal.
    rewrite <- (map_id bs) at 2. apply map_ext. apply byte_of_N_to_N.
  - symmetry. apply forallb_forall. intros x Hx.
    apply in_map_iff in Hx as [b [<- Hb]].
    rewrite Forall_forall in H. apply N.ltb_lt. now apply H.
Qed.

Lemma utf8_decode_cons (b1 : byte) (r1 : list byte) :
  utf8_decode (b1 :: r1) =
  let n1 := Byte.to_N b1 in
  if n1 <? 0x80 then option_map (cons n1) (utf8_decode r1)
  else if n1 <? 0xC0 then None
  else if n1 <? 0xE0 then
    match r1 with
    | b2 :: r2 =>
        let c := (n1 - 0xC0) * 64 + cont_bits b2 in
        if is_cont b2 && (0x80 <=? c)
        then option_map (cons c) (utf8_decode r2) else None
    | _ => None
    end
  else if n1 <? 0xF0 then
    match r1 with
    | b2 :: b3 :: r3 =>
        let c := (n1 - 0xE0) * 4096 + cont_bits b2 * 64 + cont_bits b3 in
        if is_cont b2 && is_cont b3 && (0x800 <=? c)
           && negb ((0xD800 <=? c) && (c <? 0xE000))
        then option_map (cons c) (utf8_decode r3) else None
    | _ => None
    end
  else
    match r1 with
    | b2 :: b3 :: b4 :: r4 =>
        let c := (n1 - 0xF0) * 262144 + cont_bits b2 * 4096
                 + cont_bits b3 * 64 + cont_bits b4 in
        if is_cont b2 && is_cont b3 && is_cont b4
           && (0x10000 <=? c) && (c <? 0x110000)
        then option_map (cons c) (utf8_decode r4) else None
    | _ => None
    end.
Proof. reflexivity. Qed.

(** ASCII bytes decode to themselves. *)
Lemma utf8_decode_ascii (bs : list byte) :
  Forall (fun b => Byte.to_N b < 128) bs ->
  utf8_decode bs = Some (map Byte.to_N bs).
Proof.
  induction 1 as [|b bs Hb _ IH]; [reflexivity|].
  rewrite utf8_decode_cons. cbv zeta. cbn [map].
  apply N.ltb_lt in Hb. rewrite Hb, IH. reflexivity.
Qed.

Ltac some_inj :=
  match goal with
  | |- Some ?x = Some ?y -> _ =>
      let E := fresh in
      intros E; assert (y = x) by congruence; subst y; clear E
  end.

(** One code point, encoded and read back in front of any tail. *)
Lemma utf8_decode_encode_cp (c : N) (bs tail : list byte) :
  utf8_encode_cp c = Some bs ->
  utf8_decode (bs ++ tail) = option_map (cons c) (utf8_decode tail).
Proof.
  unfold utf8_encode_cp.
  destruct (c <? 0x80) eqn:H1.
  { apply N.ltb_lt in H1. some_inj.
    cbn [Datatypes.app]. rewrite utf8_decode_cons. cbv beta iota zeta.
    rewrite to_N_byte_of_N by lia.
    apply N.ltb_lt in H1. now rewrite H1. }
  apply N.ltb_ge in H1.
  destruct (c <? 0x800) eqn:H2.
  { apply N.ltb_lt in H2. some_inj.
    cbn [Datatypes.app]. rewrite utf8_decode_cons. cbv beta iota zeta. unfold is_cont, cont_bits.
    rewrite !to_N_byte_of_N by euclid.
    replace (0xC0 + c / 64 <? 0x80) with false by (symmetry; apply N.ltb_ge; euclid).
    replace (0xC0 + c / 64 <? 0xC0) with false by (symmetry; apply N.ltb_ge; euclid).
    replace (0xC0 + c / 64 <? 0xE0) with true by (symmetry; apply N.ltb_lt; euclid).
    replace (0x80 <=? 0x80 + c mod 64) with true by (symmetry; apply N.leb_le; euclid).
    replace (0x80 + c mod 64 <? 0xC0) with true by (symmetry; apply N.ltb_lt; euclid).
    replace ((0xC0 + c / 64 - 0xC0) * 64 + (0x80 + c mod 64 - 0x80)) with c by euclid.
    replace (0x80 <=? c) with true by (symmetry; apply N.leb_le; lia).
    reflexivity. }
  apply N.ltb_ge in H2.
  destruct (c <? 0x10000) eqn:H3.
  { apply N.ltb_lt in H3.
    destruct ((0xD800 <=? c) && (c <? 0xE000)) eqn:Hs; [discriminate|].
    some_inj.
    cbn [Datatypes.app]. rewrite utf8_decode_cons. cbv beta iota zeta. unfold is_cont, cont_bits.
    rewrite !to_N_byte_of_N by euclid.
    replace (0xE0 + c / 4096 <? 0x80) with false by (symmetry; apply N.ltb_ge; euclid).
    replace (0xE0 + c / 4096 <? 0xC0) with false by (symmetry; apply N.ltb_ge; euclid).
    replace (0xE0 + c / 4096 <? 0xE0) with false by (symmetry; apply N.ltb_ge; euclid).
    replace (0xE0 + c / 4096 <? 0xF0) with true by (symmetry; apply N.ltb_lt; euclid).
    replace (0x80 <=? 0x80 + (c / 64) mod 64) with true by (symmetry; apply N.leb_le; euclid).
    replace (0x80 + (c / 64) mod 64 <? 0xC0) with true by (symmetry; apply N.ltb_lt; euclid).
    replace (0x80 <=? 0x80 + c mod 64) with true by (symmetry; apply N.leb_le; euclid).
    replace (0x80 + c mod 64 <? 0xC0) with true by (symmetry; apply N.ltb_lt; euclid).
    replace ((0xE0 + c / 4096 - 0xE0) * 4096 + (0x80 + (c / 64) mod 64 - 0x80) * 64
             + (0x80 + c mod 64 - 0x80)) with c by euclid.
    replace (0x800 <=? c) with true by (symmetry; apply N.leb_le; lia).
    rewrite Hs. reflexivity. }
  apply N.ltb_ge in H3.
  destruct (c <? 0x110000) eqn:H4; [|discriminate].
  apply N.ltb_lt in H4. some_inj.
  cbn [Datatypes.app]. rewrite utf8_decode_cons. cbv beta iota zeta. unfold is_cont, cont_bits.
  rewrite !to_N_byte_of_N by euclid.
  replace (0xF0 + c / 262144 <? 0x80) with false by (symmetry; apply N.ltb_ge; euclid).
  replace (0xF0 + c / 262144 <? 0xC0) with false by (symmetry; apply N.ltb_ge; euclid).
  replace (0xF0 + c / 262144 <? 0xE0) with false by (symmetry; apply N.ltb_ge; euclid).
  replace (0xF0 + c / 262144 <? 0xF0) with false by (symmetry; apply N.ltb_ge; euclid).
  replace (0x80 <=? 0x80 + (c / 4096) mod 64) with true by (symmetry; apply N.leb_le; euclid).
  replace (0x80 + (c / 4096) mod 64 <? 0xC0) with true by (symmetry; apply N.ltb_lt; euclid).
  replace (0x80 <=? 0x80 + (c / 64) mod 64) with true by (symmetry; apply N.leb_le; euclid).
  replace (0x80 + (c / 64) mod 64 <? 0xC0) with true by (symmetry; apply N.ltb_lt; euclid).
  replace (0x80 <=? 0x80 + c mod 64) with true by (symmetry; apply N.leb_le; euclid).
  replace (0x80 + c mod 64 <? 0xC0) with true by (symmetry; apply N.ltb_lt; euclid).
  replace ((0xF0 + c / 262144 - 0xF0) * 262144 + (0x80 + (c / 4096) mod 64 - 0x80) * 4096
           + (0x80 + (c / 64) mod 64 - 0x80) * 64 + (0x80 + c mod 64 - 0x80)) with c by euclid.
  replace (0x10000 <=? c) with true by (symmetry; apply N.leb_le; lia).
  replace (c <? 0x110000) with true by (symmetry; apply N.ltb_lt; lia).
  reflexivity.
Qed.

Lemma utf8_decode_encode (s : pystr) (bs : list byte) :
  utf8_encode s = Some bs -> utf8_decode bs = Some s.
Proof.
  revert bs. induction s as [|c s IH]; intros bs.
  - intros [= <-]. reflexivity.
  - cbn [utf8_encode].
    destruct (utf8_encode_cp c) as [hd|] eqn:Hc; [|discriminate].
    destruct (utf8_encode s) as [tl|]; [|discriminate].
    intros [= <-].
    rewrite (utf8_decode_encode_cp _ _ _ Hc), (IH tl eq_refl). reflexivity.
Qed.

Lemma utf8_encode_cp_scalar (c : N) :
  scalar_value c -> exists bs, utf8_encode_cp c = Some bs.
Proof.
  intros [Hlt Hns]. unfold utf8_encode_cp.
  destruct (c <? 0x80); [eauto|].
  destruct (c <? 0x800); [eauto|].
  destruct (c <? 0x10000).
  - destruct ((0xD800 <=? c) && (c <? 0xE000)) eqn:E; [|eauto].
    apply andb_true_iff in E as [E1 E2].
    apply N.leb_le in E1. apply N.ltb_lt in E2. exfalso. apply Hns. lia.
  - apply N.ltb_lt in Hlt. rewrite Hlt. eauto.
Qed.

Lemma utf8_encode_total (s : pystr) :
  well_formed s -> exists bs, utf8_encode s = Some bs.
Proof.
  induction 1 as [|c s Hc _ [tl IH]].
  - now exists [].
  - destruct (utf8_encode_cp_scalar c Hc) as [hd Hhd].
    exists (hd ++ tl). cbn [utf8_encode]. now rewrite Hhd, IH.
Qed.

Lemma skipn_prefix {A} (p rest : list A) : skipn (List.length p) (p ++ rest) = rest.
Proof. induction p as [|x p IH]; [reflexivity|exact IH]. Qed.

Lemma until_quote_stops (payload rest : pystr) :
  Forall (fun c => c <> 34) payload ->
  until_quote (payload ++ dq ++ rest) = payload.
Proof.
  induction 1 as [|c payload Hc _ IH]; [reflexivity|].
  cbn [Datatypes.app until_quote].
  apply N.eqb_neq in Hc. rewrite Hc. f_equal. exact IH.
Qed.

Lemma link_payload_of_anchor (payload rest : pystr) :
  Forall (fun c => c <> 34) payload ->
  link_payload (lit "<a href=" ++ dq ++ lit "data:file/markdown;base64,"
                    ++ payload ++ dq ++ rest) = payload.
Proof.
  intros H. unfold link_payload.
  replace (lit "<a href=" ++ dq ++ lit "data:file/markdown;base64,"
               ++ payload ++ dq ++ rest)
    with ((lit "<a href=" ++ dq ++ lit "data:file/markdown;base64,")
            ++ (payload ++ dq ++ rest))
    by (now rewrite <- !app_assoc).
  rewrite skipn_prefix. now apply until_quote_stops.
Qed.

Lemma b64_text_ascii (bs : list byte) :
  Forall (fun b => Byte.to_N b < 128) (b64encode bs).
Proof. eapply Forall_impl; [|apply b64encode_out]. apply b64_out_ascii. Qed.

Lemma b64_text_no_quote (bs : list byte) :
  Forall (fun c => c <> 34) (map Byte.to_N (b64encode bs)).
Proof.
  apply Forall_map. eapply Forall_impl; [|apply b64encode_out].
  apply b64_out_not_quote.
Qed.

(** The link for a string whose encoding is [bs]. *)
Lemma get_download_link_encoded (s file_name : pystr) (bs : list byte) :
  utf8_encode s = Some bs ->
  get_download_link (PyStr s) file_name =
  ok (lit "<a href=" ++ dq ++ lit "data:file/markdown;base64,"
          ++ map Byte.to_N (b64encode bs)
          ++ dq ++ lit " download=" ++ dq ++ file_name ++ dq
          ++ lit ">Download " ++ file_name ++ lit "</a>").
Proof.
  intros H. unfold get_download_link, py_encode, str_encode, bytes_decode.
  rewrite H. cbv beta iota delta [ok raise].
  rewrite (utf8_decode_ascii _ (b64_text_ascii bs)). reflexivity.
Qed.

(** A link read back: for a string whose encoding is [bs], the payload
    of its link decodes to [bs], and [bs] decodes to the string. *)
Lemma read_back_encoded (s file_name : pystr) (bs : list byte) :
  utf8_encode s = Some bs ->
  exists href,
    get_download_link (PyStr s) file_name = ok href /\
    py_b64decode (link_payload href) = ok bs /\
    read_link href = ok s.
Proof.
  intros Hbs. eexists.
  split; [apply (get_download_link_encoded _ _ _ Hbs)|].
  assert (P : py_b64decode
                (link_payload
                   (lit "<a href=" ++ dq ++ lit "data:file/markdown;base64,"
                        ++ map Byte.to_N (b64encode bs)
                        ++ dq ++ lit " download=" ++ dq ++ file_name ++ dq
                        ++ lit ">Download " ++ file_name ++ lit "</a>"))
              = ok bs).
  { rewrite link_payload_of_anchor by apply b64_text_no_quote.
    unfold py_b64decode.
    rewrite (ascii_bytes_of_bytes _ (b64_text_ascii bs)).
    cbv beta iota delta [ok].
    now rewrite b64decode_b64encode. }
  split; [exact P|].
  unfold read_link. rewrite P. cbv beta iota delta [ok]. unfold bytes_decode.
  now rewrite (utf8_decode_encode _ _ Hbs).
Qed.

(** The sidebar link of a session whose last report is a non-empty
    string of scalar values reads back as that report. *)
Lemma latest_download_reads_back (s : Session) (report : pystr) :
  research_document s = PyStr report ->
  report <> [] ->
  well_formed report ->
  exists href,
    effects (latest_download s)
    = [EvSidebarMarkdown (lit "### Download Latest Research");
       EvSidebarHtml href] /\
    read_link href = ok report.
Proof.
  intros Hd Hne W. destruct (utf8_encode_total report W) as [bs Hbs].
  destruct (read_back_encoded report (lit "Research_Document.md") bs Hbs)
    as [href [L [_ Hr]]].
  exists href. split; [|exact Hr].
  unfold latest_download.
  cbv beta iota delta [bind emit get lift ret ok effects fst snd].
  rewrite Hd. destruct report as [|c report]; [contradiction|].
  cbn [truthy is_nil negb]. rewrite L. reflexivity.
Qed.

(** C7. Round trip of the file export: for a report made of Unicode
    scalar values, [get_download_link] returns a link; the payload of
    that link, base64-decoded, is byte for byte the UTF-8 encoding of
    the report, and decoding those bytes gives the report back. *)
Theorem export_round_trip (report file_name : pystr) :
  well_formed report ->
  exists href bs,
    get_download_link (PyStr report) file_name = ok href /\
    str_encode report = ok bs /\
    py_b64decode (link_payload href) = ok bs /\
    read_link href = ok report.
Proof.
  intros W. destruct (utf8_encode_total report W) as [bs Hbs].
  destruct (read_back_encoded report file_name bs Hbs) as [href [L [P Rd]]].
  exists href, bs. split; [exact L|]. split; [|split; assumption].
  unfold str_encode. now rewrite Hbs.
Qed.

Lemma export_round_trip_witness :
  well_formed [35; 32; 0x20AC; 0x1F600] /\
  exists href bs,
    get_download_link (PyStr [35; 32; 0x20AC; 0x1F600]) (lit "Research_Document.md")
      = ok href /\
    str_encode [35; 32; 0x20AC; 0x1F600] = ok bs /\
    py_b64decode (link_payload href) = ok bs /\
    read_link href = ok [35; 32; 0x20AC; 0x1F600].
Proof.
  assert (W : well_formed [35; 32; 0x20AC; 0x1F600]).
  { unfold well_formed. repeat constructor; unfold scalar_value; lia. }
  split; [exact W|]. apply (export_round_trip _ _ W).
Defined.

(* ================================================================= *)
(** ** The chat handler *)

Ltac script_step :=
  cbv beta iota delta
    [bind emit modify get lift ret throw ok raise final_session effects result
     fst snd].

Lemma first_surrogate_kind (s : pystr) :
  forall pos e, first_surrogate pos s = Some e -> exc_kind e = UnicodeError.
Proof.
  induction s as [|c s IH]; intros pos e; cbn [first_surrogate].
  - discriminate.
  - destruct (is_surrogate c).
    + intros [= <-]. reflexivity.
    + apply IH.
Qed.

Lemma py_encode_exception (v : PyVal) (e : Exc) :
  py_encode v = inl e -> is_Exception e = true.
Proof.
  destruct v; cbn [py_encode]; try (intros [= <-]; reflexivity).
  unfold str_encode. destruct (utf8_encode s); [discriminate|].
  destruct (first_surrogate 0 s) as [e'|] eqn:E.
  - intros [= <-]. unfold is_Exception.
    now rewrite (first_surrogate_kind _ _ _ E).
  - intros [= <-]. reflexivity.
Qed.

Lemma get_download_link_exception (v : PyVal) (name : pystr) (e : Exc) :
  get_download_link v name = inl e -> is_Exception e = true.
Proof.
  unfold get_download_link.
  destruct (py_encode v) as [e1|bs] eqn:E1.
  - intros [= <-]. now apply (py_encode_exception v).
  - unfold bytes_decode. destruct (utf8_decode (b64encode bs)).
    + discriminate.
    + intros [= <-]. reflexivity.
Qed.

Lemma filter_param_exception (v : pystr) (e : Exc) :
  filter_param v = inl e -> is_Exception e = true.
Proof.
  unfold filter_param. destruct (pystr_eqb v (lit "None")); [discriminate|].
  unfold py_int. destruct v.
  - intros [= <-]. reflexivity.
  - destruct (digits_value 0%Z (n :: v)); [discriminate|].
    intros [= <-]. reflexivity.
Qed.

Lemma chat_request_exception (env : Env) (prompt : pystr) (s : Session) (e : Exc) :
  chat_request env prompt s = inl e -> is_Exception e = true.
Proof.
  unfold chat_request.
  destruct (filter_param (year s)) as [e1|y] eqn:E1.
  - intros [= <-]. now apply (filter_param_exception (year s)).
  - destruct (filter_param (quarter s)) as [e2|q] eqn:E2.
    + intros [= <-]. now apply (filter_param_exception (quarter s)).
    + discriminate.
Qed.

Lemma py_get_exception (v : PyVal) (k : pystr) (d : PyVal) (e : Exc) :
  py_get v k d = inl e -> is_Exception e = true.
Proof.
  destruct v; cbn [py_get]; try (intros [= <-]; reflexivity).
  destruct (dict_get d0 k); discriminate.
Qed.

(** The branch for status 200 either appends one markdown reply that
    carries the stored report, or raises an [Exception] and appends
    nothing. *)
Lemma on_success_outcome (response : Response) (s : Session) :
  (exists report,
      on_success response s =
      (append_message
         {| role := lit "assistant"; content := report;
            is_markdown := Some true; visualization := None |}
         (set_research_document report s),
       effects (on_success response s), ok tt))
  \/
  (exists e,
      result (on_success response s) = inl e /\
      is_Exception e = true /\
      messages (final_session (on_success response s)) = messages s).
Proof.
  unfold on_success, response_json.
  destruct (json response) as [msg|body] eqn:J.
  { right. script_step. eexists. repeat split. }
  destruct (py_get body (lit "report") (PyStr [])) as [e|report] eqn:G.
  { right. script_step. rewrite G. script_step.
    exists e. repeat split. now apply (py_get_exception _ _ _ _ G). }
  destruct (get_download_link report (lit "Research_Document.md")) as [e|link] eqn:L.
  { right. script_step. rewrite G. script_step. rewrite L. script_step.
    exists e. repeat split. now apply (get_download_link_exception _ _ _ L). }
  left. exists report. script_step. rewrite G. script_step. rewrite L.
  script_step. reflexivity.
Qed.

(** The body of the [try] either appends one reply, or raises an
    [Exception] and appends nothing. *)
Lemma attempt_outcome (env : Env) (prompt : pystr) (s : Session) :
  (exists reply,
      result (attempt env prompt s) = ok tt /\
      messages (final_session (attempt env prompt s)) = messages s ++ [reply] /\
      role reply = lit "assistant" /\
      visualization reply = None)
  \/
  (exists e,
      result (attempt env prompt s) = inl e /\
      is_Exception e = true /\
      messages (final_session (attempt env prompt s)) = messages s).
Proof.
  unfold attempt. script_step.
  destruct (chat_request env prompt s) as [e|req] eqn:R.
  { right. exists e. repeat split. now apply (chat_request_exception _ _ _ _ R). }
  unfold requests_post.
  destruct (post env req) as [msg|response] eqn:P.
  { right. script_step. eexists. repeat split. }
  script_step.
  destruct (status_code response =? 200)%Z.
  - destruct (on_success_outcome response s) as [[report Hs]|[e [Hr [He Hm]]]].
    + left. rewrite Hs. script_step. eexists. repeat split.
    + right. exists e.
      destruct (on_success response s) as [[s1 t1] r1].
      unfold result, final_session in *. cbn [fst snd] in *. subst r1.
      repeat split; assumption.
  - left. unfold on_failure. script_step. eexists. repeat split.
Qed.

(** Whatever the API does, the handler returns normally and has
    appended the user's message followed by one assistant message. *)
Lemma submit_query_appends (env : Env) (names : list pystr) (prompt : pystr)
      (s : Session) :
  exists reply,
    result (submit_query env names prompt s) = ok tt /\
    messages (final_session (submit_query env names prompt s))
    = messages s ++ [user_message prompt; reply] /\
    role reply = lit "assistant" /\
    visualization reply = None.
Proof.
  unfold submit_query, try_except. script_step.
  fold (user_message prompt).
  pose proof (attempt_outcome env prompt (append_message (user_message prompt) s)) as H.
  destruct (attempt env prompt (append_message (user_message prompt) s))
    as [[s1 t1] r1].
  unfold result, final_session in H. cbn [fst snd] in H.
  destruct H as [[reply [Hr [Hm [Hrole Hviz]]]]|[e [Hr [He Hm]]]]; subst r1.
  - script_step. exists reply. repeat split; try assumption.
    rewrite Hm. cbn [append_message set_messages messages].
    now rewrite <- app_assoc.
  - rewrite He. unfold on_exception. script_step.
    exists {| role := lit "assistant";
              content := PyStr
                (lit "Error: Unable to connect to the research API. "
                     ++ exc_str e);
              is_markdown := Some false;
              visualization := None |}.
    repeat split.
    cbn [append_message set_messages messages]. rewrite Hm.
    cbn [append_message set_messages messages].
    now rewrite <- app_assoc.
Qed.

(** C1. Every accepted submission (an agent is active, the prompt is
    not empty) appends exactly two messages, whatever the API does:
    first the user's message, then one assistant message; the handler
    itself never fails. *)
Theorem submit_appends_user_then_assistant (env : Env) (inp : Inputs)
        (s : Session) (prompt : pystr) :
  submitted inp = Some prompt ->
  prompt <> [] ->
  active_agent_names (active_agents s) <> [] ->
  exists reply,
    messages (final_session (chat env inp (active_agent_names (active_agents s)) s))
    = messages s ++ [user_message prompt; reply] /\
    role (user_message prompt) = lit "user" /\
    role reply = lit "assistant" /\
    result (chat env inp (active_agent_names (active_agents s)) s) = ok tt.
Proof.
  intros Hsub Hp Hn. unfold chat.
  destruct (active_agent_names (active_agents s)) as [|n names] eqn:E;
    [contradiction|].
  cbn [List.length Nat.ltb Nat.leb].
  unfold chat_input. script_step. rewrite Hsub.
  destruct prompt as [|c prompt]; [contradiction|]. cbn [is_nil negb].
  destruct (submit_query_appends env (n :: names) (c :: prompt) s)
    as [reply [Hr [Hm [Hrole _]]]].
  exists reply.
  destruct (submit_query env (n :: names) (c :: prompt) s) as [[s1 t1] r1].
  unfold result, final_session in *. cbn [fst snd] in *.
  repeat split; assumption.
Qed.

(** The handler once the API has answered. *)
Lemma submit_query_on_response (env : Env) (names : list pystr)
      (prompt : pystr) (s : Session) (req : Request) (response : Response) :
  chat_request env prompt s = ok req ->
  post env req = inr response ->
  submit_query env names prompt s =
  match (if (status_code response =? 200)%Z
         then on_success response else on_failure response)
          (append_message (user_message prompt) s) with
  | (s1, t1, inl e) =>
      if is_Exception e then
        match on_exception e s1 with
        | (s2, t2, r) => (s2, prologue names prompt req ++ t1 ++ t2, r)
        end
      else (s1, prologue names prompt req ++ t1, inl e)
  | (s1, t1, inr a) => (s1, prologue names prompt req ++ t1, inr a)
  end.
Proof.
  intros R P.
  unfold submit_query, try_except, attempt, requests_post. script_step.
  fold (user_message prompt).
  change (chat_request env prompt (append_message (user_message prompt) s))
    with (chat_request env prompt s).
  rewrite R. script_step. rewrite P. script_step.
  destruct ((if (status_code response =? 200)%Z
             then on_success response else on_failure response)
              (append_message (user_message prompt) s)) as [[s1 t1] [e|[]]].
  - destruct (is_Exception e).
    + destruct (on_exception e s1) as [[s2 t2] r]. reflexivity.
    + reflexivity.
  - reflexivity.
Qed.

Lemma starts_with_self (p : pystr) : starts_with p p = true.
Proof.
  induction p as [|c p IH]; [reflexivity|].
  cbn [starts_with]. now rewrite N.eqb_refl, IH.
Qed.

Lemma contains_suffix (sub before : pystr) : contains sub (before ++ sub) = true.
Proof.
  induction before as [|c before IH].
  - cbn [Datatypes.app].
    destruct sub; cbn [contains]; now rewrite starts_with_self.
  - cbn [Datatypes.app contains]. rewrite IH. apply orb_true_r.
Qed.

(** C3, as the code has it. For a status other than 200 the
    transcript gains the user's message and exactly one non-markdown
    assistant message, whose text is the fixed sentence followed by
    the status code; the response body is shown in the error banner
    only; the last report is left as it was. *)
Theorem failure_reply_names_status_only (env : Env) (names : list pystr)
        (prompt : pystr) (s : Session) (req : Request) (response : Response) :
  chat_request env prompt s = ok req ->
  post env req = inr response ->
  status_code response <> 200%Z ->
  messages (final_session (submit_query env names prompt s))
  = messages s ++ [user_message prompt; status_reply (status_code response)] /\
  is_markdown (status_reply (status_code response)) = Some false /\
  mentions (str_of_int (status_code response))
           (status_reply (status_code response)) = true /\
  banners (effects (submit_query env names prompt s))
  = [lit "Error: " ++ str_of_int (status_code response) ++ lit " - "
         ++ text response] /\
  research_document (final_session (submit_query env names prompt s))
  = research_document s.
Proof.
  intros R P Hs.
  rewrite (submit_query_on_response _ _ _ _ _ _ R P).
  apply Z.eqb_neq in Hs. rewrite Hs.
  unfold on_failure. script_step.
  repeat split.
  - cbn [append_message set_messages messages]. now rewrite <- app_assoc.
  - unfold mentions, status_reply. cbn [content]. apply contains_suffix.
Qed.

Lemma failure_reply_names_status_only_witness :
  chat_request api_500 revenue_question retrieval_2023_q2 = ok revenue_request /\
  post api_500 revenue_request
  = inr (mkResponse 500 (lit "internal error") not_json) /\
  messages (final_session
              (submit_query api_500 [lit "rag_agent"] revenue_question
                            retrieval_2023_q2))
  = [user_message revenue_question; status_reply 500] /\
  mentions (lit "500") (status_reply 500) = true /\
  banners (effects
             (submit_query api_500 [lit "rag_agent"] revenue_question
                           retrieval_2023_q2))
  = [lit "Error: 500 - internal error"] /\
  research_document
    (final_session
       (submit_query api_500 [lit "rag_agent"] revenue_question
                     retrieval_2023_q2))
  = PyNone.
Proof.
  assert (R : chat_request api_500 revenue_question retrieval_2023_q2
              = ok revenue_request) by reflexivity.
  assert (P : post api_500 revenue_request
              = inr (mkResponse 500 (lit "internal error") not_json))
    by reflexivity.
  assert (S : status_code (mkResponse 500 (lit "internal error") not_json)
              <> 200%Z) by (simpl; lia).
  destruct (failure_reply_names_status_only
              api_500 [lit "rag_agent"] revenue_question retrieval_2023_q2
              revenue_request _ R P S) as [Hm [_ [Hc [Hb Hd]]]].
  repeat split; assumption.
Defined.

(** C3, as the spec words it, fails: for status 500 with the body
    "internal error" the recorded reply does not contain the body. *)
Lemma status_500_reply_lacks_body :
  ~ (exists reply,
        messages (final_session
                    (submit_query api_500 [lit "rag_agent"] revenue_question
                                  retrieval_2023_q2))
        = messages retrieval_2023_q2 ++ [user_message revenue_question; reply] /\
        is_markdown reply = Some false /\
        mentions (lit "500") reply = true /\
        mentions (lit "internal error") reply = true /\
        research_document
          (final_session
             (submit_query api_500 [lit "rag_agent"] revenue_question
                           retrieval_2023_q2))
        = research_document retrieval_2023_q2).
Proof.
  intros [reply [Hm [_ [_ [Hb _]]]]].
  vm_compute in Hm. injection Hm as <-.
  vm_compute in Hb. discriminate.
Qed.

(** The link for the empty report. *)
Lemma empty_report_link :
  exists link, get_download_link (PyStr []) (lit "Research_Document.md") = ok link.
Proof. eexists. reflexivity. Qed.

(** C9. A 200 response whose JSON object has no [report] key makes the
    empty string the last report and appends a markdown reply with
    empty content; with that report stored, lines 234-239 draw no
    download link in the sidebar. *)
Theorem missing_report_gives_empty_reply (env : Env) (names : list pystr)
        (prompt : pystr) (s : Session) (req : Request) (response : Response)
        (fields : list (pystr * PyVal)) :
  chat_request env prompt s = ok req ->
  post env req = inr response ->
  status_code response = 200%Z ->
  json response = inr (PyDict fields) ->
  dict_get fields (lit "report") = None ->
  research_document (final_session (submit_query env names prompt s))
  = PyStr [] /\
  messages (final_session (submit_query env names prompt s))
  = messages s ++ [user_message prompt; report_reply (PyStr [])] /\
  is_markdown (report_reply (PyStr [])) = Some true /\
  effects (latest_download (final_session (submit_query env names prompt s)))
  = [].
Proof.
  intros R P Hs J G.
  rewrite (submit_query_on_response _ _ _ _ _ _ R P).
  rewrite Hs. cbn [Z.eqb Pos.eqb].
  unfold on_success, response_json. rewrite J. script_step.
  unfold py_get. rewrite G. script_step.
  destruct empty_report_link as [link L]. rewrite L. script_step.
  repeat split.
  cbn [append_message set_messages set_research_document messages].
  now rewrite <- app_assoc.
Qed.

(** C10. A 200 response whose body does not parse as JSON is handled
    by the [except] branch: the reply is the connection-error text
    followed by the parser's message, it is not markdown, the banner
    speaks of a connection error too, and the last report is left as
    it was. *)
Theorem unparsable_body_is_a_connection_error (env : Env)
        (names : list pystr) (prompt : pystr) (s : Session) (req : Request)
        (response : Response) (msg : pystr) :
  chat_request env prompt s = ok req ->
  post env req = inr response ->
  status_code response = 200%Z ->
  json response = inl msg ->
  messages (final_session (submit_query env names prompt s))
  = messages s ++ [user_message prompt; connection_reply msg] /\
  is_markdown (connection_reply msg) = Some false /\
  mentions (lit "Error: Unable to connect to the research API.")
           (connection_reply msg) = true /\
  banners (effects (submit_query env names prompt s))
  = [lit "Error connecting to API: " ++ msg] /\
  research_document (final_session (submit_query env names prompt s))
  = research_document s.
Proof.
  intros R P Hs J.
  rewrite (submit_query_on_response _ _ _ _ _ _ R P).
  rewrite Hs. cbn [Z.eqb Pos.eqb].
  unfold on_success, response_json. rewrite J. script_step.
  cbn [is_Exception exc_kind]. unfold on_exception. script_step.
  repeat split.
  cbn [append_message set_messages messages exc_str].
  now rewrite <- app_assoc.
Qed.

(** The part of C2 that holds: a 200 response whose [report] is a
    string of scalar values is stored as the last report and recorded
    as a markdown reply with that content. *)
Lemma success_stores_and_records_report (env : Env) (names : list pystr)
      (prompt : pystr) (s : Session) (req : Request) (response : Response)
      (fields : list (pystr * PyVal)) (report : pystr) :
  chat_request env prompt s = ok req ->
  post env req = inr response ->
  status_code response = 200%Z ->
  json response = inr (PyDict fields) ->
  dict_get fields (lit "report") = Some (PyStr report) ->
  well_formed report ->
  research_document (final_session (submit_query env names prompt s))
  = PyStr report /\
  messages (final_session (submit_query env names prompt s))
  = messages s ++ [user_message prompt; report_reply (PyStr report)].
Proof.
  intros R P Hs J G W.
  rewrite (submit_query_on_response _ _ _ _ _ _ R P).
  rewrite Hs. cbn [Z.eqb Pos.eqb].
  unfold on_success, response_json. rewrite J. script_step.
  unfold py_get. rewrite G. script_step.
  destruct (utf8_encode_total report W) as [bs Hbs].
  rewrite (get_download_link_encoded _ _ _ Hbs). script_step.
  split; [reflexivity|].
  cbn [append_message set_messages set_research_document messages].
  now rewrite <- app_assoc.
Qed.

(* ================================================================= *)
(** ** The sidebar and the page *)

Lemma sidebar_spec (inp : Inputs) (s : Session) :
  sidebar inp s =
  if clear_clicked inp
  then (cleared (configured inp s), sidebar_drawn inp s,
        inl (mkExc RerunException []))
  else (configured inp s, sidebar_drawn inp s, ok tt).
Proof.
  unfold sidebar, toggle_agents, set_filters, clear_session, rerun,
    checkbox, selectbox, button.
  script_step.
  cbn [year set_year set_active_agents active_agents snowflake_agent rag_agent
       web_search_agent messages research_document quarter].
  unfold sidebar_drawn, configured, agents_after, cleared.
  destruct (pystr_eqb (selected year_options 1 (held_year inp)) (lit "None"));
    script_step; destruct (clear_clicked inp); reflexivity.
Qed.

Ltac splits := repeat match goal with |- _ /\ _ => split end.

Lemma is_rerun_not_Exception (e : Exc) : is_Exception e = true -> is_rerun e = false.
Proof. unfold is_Exception, is_rerun. now destruct (exc_kind e). Qed.

Lemma chat_disabled_fold (t : list Effect) : chat_disabled t = fold_left chat_flag t true.
Proof. reflexivity. Qed.

Lemma py_b64decode_exception (v : pystr) (e : Exc) :
  py_b64decode v = inl e -> is_Exception e = true.
Proof.
  unfold py_b64decode, ascii_bytes.
  destruct (forallb (fun c => c <? 128) v).
  - cbv beta iota delta [ok raise]. destruct (b64decode (map byte_of_N v)).
    + discriminate.
    + intros [= <-]. reflexivity.
  - cbv beta iota delta [ok raise]. intros [= <-]. reflexivity.
Qed.

Lemma render_message_inert (m : Message) (s : Session) :
  inert (render_message m s) s.
Proof.
  unfold render_message, inert. script_step.
  destruct (pystr_eqb (role m) (lit "assistant")
            && match is_markdown m with Some b => b | None => false end).
  - script_step. destruct (visualization m) as [v|].
    + destruct (py_b64decode v) as [e|data] eqn:D; script_step.
      * splits; try reflexivity. intros e' [= <-].
        now apply (py_b64decode_exception v).
      * splits; try reflexivity. discriminate.
    + script_step. splits; try reflexivity. discriminate.
  - script_step. splits; try reflexivity. discriminate.
Qed.

Lemma bind_inert {A B} (m : Script A) (k : A -> Script B) (s : Session) :
  inert (m s) s -> (forall a, inert (k a s) s) -> inert (bind m k s) s.
Proof.
  unfold inert, bind. intros [Hs [Hr [Hc He]]] Hk.
  destruct (m s) as [[s1 t1] [e|a]]; unfold final_session, effects, result in *;
    cbn [fst snd] in *; subst s1.
  - splits; [reflexivity|assumption|assumption|].
    intros e0 [= <-]. now apply He.
  - specialize (Hk a). destruct (k a s) as [[s2 t2] r2]. cbn [fst snd] in *.
    destruct Hk as [Hs2 [Hr2 [Hc2 He2]]].
    splits; try assumption.
    + unfold requests_sent in *. rewrite flat_map_app, Hr, Hr2. reflexivity.
    + intros acc. rewrite fold_left_app, Hc, Hc2. reflexivity.
Qed.

Lemma transcript_inert (ms : list Message) (s : Session) :
  inert (for_each ms render_message s) s.
Proof.
  induction ms as [|m ms IH]; cbn [for_each].
  - unfold inert, ret. cbn. splits; try reflexivity. discriminate.
  - apply bind_inert; [apply render_message_inert|intros _; exact IH].
Qed.

Lemma latest_download_inert (s : Session) : inert (latest_download s) s.
Proof.
  unfold latest_download, inert. script_step.
  destruct (truthy (research_document s)); script_step.
  - destruct (get_download_link (research_document s) (lit "Research_Document.md"))
      as [e|link] eqn:L; script_step.
    + splits; try reflexivity. intros e' [= <-].
      now apply (get_download_link_exception _ _ _ L).
    + splits; try reflexivity. discriminate.
  - splits; try reflexivity. discriminate.
Qed.

Lemma show_active_agents_inert (names : list pystr) (s : Session) :
  inert (show_active_agents names s) s.
Proof.
  unfold show_active_agents, inert.
  destruct (negb (is_nil names)); script_step;
    splits; try reflexivity; discriminate.
Qed.


(* ----------------------------------------------------------------- *)
(** *** Two small logics for scripts *)

Section Logic.

Variable P : Effect -> Prop.
Variable R : Session -> Session -> Prop.
Hypothesis R_refl : forall s, R s s.
Hypothesis R_trans : forall a b c, R a b -> R b c -> R a c.

Lemma emits_ret {A} (a : A) : emits P (ret a).
Proof. intros s. constructor. Qed.

Lemma emits_get : emits P get.
Proof. intros s. constructor. Qed.

Lemma emits_modify (f : Session -> Session) : emits P (modify f).
Proof. intros s. constructor. Qed.

Lemma emits_lift {A} (r : Result A) : emits P (lift r).
Proof. intros s. constructor. Qed.

Lemma emits_throw {A} (e : Exc) : emits P (@throw A e).
Proof. intros s. constructor. Qed.

Lemma emits_emit (e : Effect) : P e -> emits P (emit e).
Proof. intros H s. repeat constructor. exact H. Qed.

Lemma emits_bind {A B} (m : Script A) (k : A -> Script B) :
  emits P m -> (forall a, emits P (k a)) -> emits P (bind m k).
Proof.
  intros Hm Hk s. unfold bind, effects. specialize (Hm s).
  destruct (m s) as [[s1 t1] [e|a]]; cbn [fst snd] in *; [exact Hm|].
  specialize (Hk a s1). destruct (k a s1) as [[s2 t2] r2].
  cbn [fst snd effects] in *. apply Forall_app. now split.
Qed.

Lemma emits_try {A} (body : Script A) (handler : Exc -> Script A) :
  emits P body -> (forall e, emits P (handler e)) ->
  emits P (try_except body handler).
Proof.
  intros Hb Hh s. unfold try_except, effects. specialize (Hb s).
  destruct (body s) as [[s1 t1] [e|a]]; cbn [fst snd effects] in *;
    [|exact Hb].
  destruct (is_Exception e); [|exact Hb].
  specialize (Hh e s1). destruct (handler e s1) as [[s2 t2] r2].
  cbn [fst snd effects] in *. apply Forall_app. now split.
Qed.

Lemma keeps_ret {A} (a : A) : keeps R (ret a).
Proof. intros s. apply R_refl. Qed.

Lemma keeps_get : keeps R get.
Proof. intros s. apply R_refl. Qed.

Lemma keeps_emit (e : Effect) : keeps R (emit e).
Proof. intros s. apply R_refl. Qed.

Lemma keeps_lift {A} (r : Result A) : keeps R (lift r).
Proof. intros s. apply R_refl. Qed.

Lemma keeps_throw {A} (e : Exc) : keeps R (@throw A e).
Proof. intros s. apply R_refl. Qed.

Lemma keeps_modify (f : Session -> Session) :
  (forall s, R s (f s)) -> keeps R (modify f).
Proof. intros H s. apply H. Qed.

Lemma keeps_bind {A B} (m : Script A) (k : A -> Script B) :
  keeps R m -> (forall a, keeps R (k a)) -> keeps R (bind m k).
Proof.
  intros Hm Hk s. unfold bind, final_session. specialize (Hm s).
  destruct (m s) as [[s1 t1] [e|a]]; cbn [fst snd final_session] in *;
    [exact Hm|].
  specialize (Hk a s1). destruct (k a s1) as [[s2 t2] r2].
  cbn [fst snd final_session] in *. eapply R_trans; eassumption.
Qed.

Lemma keeps_try {A} (body : Script A) (handler : Exc -> Script A) :
  keeps R body -> (forall e, keeps R (handler e)) ->
  keeps R (try_except body handler).
Proof.
  intros Hb Hh s. unfold try_except, final_session. specialize (Hb s).
  destruct (body s) as [[s1 t1] [e|a]]; cbn [fst snd final_session] in *;
    [|exact Hb].
  destruct (is_Exception e); [|exact Hb].
  specialize (Hh e s1). destruct (handler e s1) as [[s2 t2] r2].
  cbn [fst snd final_session] in *. eapply R_trans; eassumption.
Qed.

End Logic.

Ltac emits_steps :=
  repeat match goal with
    | |- emits _ (bind _ _) => apply emits_bind; [|intros ?]
    | |- emits _ (try_except _ _) => apply emits_try; [|intros ?]
    | |- emits _ (ret _) => apply emits_ret
    | |- emits _ get => apply emits_get
    | |- emits _ (modify _) => apply emits_modify
    | |- emits _ (lift _) => apply emits_lift
    | |- emits _ (throw _) => apply emits_throw
    | |- emits _ (emit _) => apply emits_emit; exact I
    | |- emits _ (if ?c then _ else _) => destruct c
    | |- emits _ (match ?x with _ => _ end) => destruct x
    end.

Ltac keeps_steps refl trans :=
  repeat match goal with
    | |- keeps _ (bind _ _) => apply (keeps_bind _ trans); [|intros ?]
    | |- keeps _ (try_except _ _) => apply (keeps_try _ trans); [|intros ?]
    | |- keeps _ (ret _) => apply (keeps_ret _ refl)
    | |- keeps _ get => apply (keeps_get _ refl)
    | |- keeps _ (emit _) => apply (keeps_emit _ refl)
    | |- keeps _ (lift _) => apply (keeps_lift _ refl)
    | |- keeps _ (throw _) => apply (keeps_throw _ refl)
    | |- keeps _ (modify _) => apply keeps_modify; intros ?; repeat split
    | |- keeps _ (if ?c then _ else _) => destruct c
    | |- keeps _ (match ?x with _ => _ end) => destruct x
    end.

Lemma same_settings_refl (s : Session) : same_settings s s.
Proof. repeat split. Qed.

Lemma same_settings_trans (a b c : Session) :
  same_settings a b -> same_settings b c -> same_settings a c.
Proof.
  intros [H1 [H2 H3]] [H4 [H5 H6]]. repeat split; congruence.
Qed.

Lemma no_posts (t : list Effect) : Forall not_a_post t -> requests_sent t = [].
Proof.
  induction 1 as [|e t He _ IH]; [reflexivity|].
  destruct e; cbn in *; try exact IH. contradiction.
Qed.

Lemma no_chat_inputs (t : list Effect) :
  Forall not_a_chat_input t -> forall acc, fold_left chat_flag t acc = acc.
Proof.
  induction 1 as [|e t He _ IH]; intros acc; [reflexivity|].
  destruct e; cbn in *; try apply IH. contradiction.
Qed.

Lemma on_success_sends_nothing (response : Response) :
  emits not_a_post (on_success response).
Proof. unfold on_success. emits_steps. Qed.

Lemma on_failure_sends_nothing (response : Response) :
  emits not_a_post (on_failure response).
Proof. unfold on_failure. emits_steps. Qed.

Lemma on_exception_sends_nothing (e : Exc) : emits not_a_post (on_exception e).
Proof. unfold on_exception. emits_steps. Qed.

Lemma submit_query_draws_no_chat_input (env : Env) (names : list pystr)
      (prompt : pystr) :
  emits not_a_chat_input (submit_query env names prompt).
Proof.
  unfold submit_query, attempt, on_success, on_failure, on_exception.
  emits_steps.
Qed.

Lemma submit_query_keeps_settings (env : Env) (names : list pystr)
      (prompt : pystr) :
  keeps same_settings (submit_query env names prompt).
Proof.
  unfold submit_query, attempt, on_success, on_failure, on_exception.
  keeps_steps same_settings_refl same_settings_trans.
Qed.

Lemma requests_sent_app (a b : list Effect) :
  requests_sent (a ++ b) = requests_sent a ++ requests_sent b.
Proof. apply flat_map_app. Qed.

(** The handler sends one request when the arguments could be built,
    none otherwise. *)
Lemma submit_query_requests (env : Env) (names : list pystr) (prompt : pystr)
      (s : Session) :
  requests_sent (effects (submit_query env names prompt s)) =
  match chat_request env prompt s with
  | inr req => [req]
  | inl _ => []
  end.
Proof.
  unfold submit_query, try_except, attempt, requests_post. script_step.
  fold (user_message prompt).
  change (chat_request env prompt (append_message (user_message prompt) s))
    with (chat_request env prompt s).
  destruct (chat_request env prompt s) as [e|req] eqn:R.
  { rewrite (chat_request_exception _ _ _ _ R). reflexivity. }
  script_step.
  destruct (post env req) as [msg|response]; [reflexivity|].
  script_step.
  pose proof (on_success_sends_nothing response
                (append_message (user_message prompt) s)) as Hs.
  pose proof (on_failure_sends_nothing response
                (append_message (user_message prompt) s)) as Hf.
  destruct (status_code response =? 200)%Z.
  - destruct (on_success response (append_message (user_message prompt) s))
      as [[s1 t1] [e|[]]]; cbn [effects fst snd] in Hs.
    + destruct (is_Exception e).
      * pose proof (on_exception_sends_nothing e s1) as He.
        destruct (on_exception e s1) as [[s2 t2] r2]. cbn [effects fst snd] in *.
        cbn [Datatypes.app requests_sent flat_map].
        fold (requests_sent (t1 ++ t2)).
        now rewrite requests_sent_app, (no_posts _ Hs), (no_posts _ He).
      * cbn [Datatypes.app requests_sent flat_map]. fold (requests_sent t1).
        now rewrite (no_posts _ Hs).
    + cbn [Datatypes.app requests_sent flat_map]. fold (requests_sent t1).
      now rewrite (no_posts _ Hs).
  - destruct (on_failure response (append_message (user_message prompt) s))
      as [[s1 t1] [e|[]]]; cbn [effects fst snd] in Hf.
    + destruct (is_Exception e).
      * pose proof (on_exception_sends_nothing e s1) as He.
        destruct (on_exception e s1) as [[s2 t2] r2]. cbn [effects fst snd] in *.
        cbn [Datatypes.app requests_sent flat_map].
        fold (requests_sent (t1 ++ t2)).
        now rewrite requests_sent_app, (no_posts _ Hf), (no_posts _ He).
      * cbn [Datatypes.app requests_sent flat_map]. fold (requests_sent t1).
        now rewrite (no_posts _ Hf).
    + cbn [Datatypes.app requests_sent flat_map]. fold (requests_sent t1).
      now rewrite (no_posts _ Hf).
Qed.

(** Lines 132-231, case by case. *)
Lemma chat_spec (env : Env) (inp : Inputs) (names : list pystr) (s : Session) :
  chat env inp names s =
  if is_nil names then
    (s, [EvChatInput (lit "Please select at least one agent to continue...") true],
     ok tt)
  else
    match submitted inp with
    | Some p =>
        if is_nil p then (s, [EvChatInput ask false], ok tt)
        else match submit_query env names p s with
             | (s1, t1, r1) => (s1, EvChatInput ask false :: t1, r1)
             end
    | None => (s, [EvChatInput ask false], ok tt)
    end.
Proof.
  unfold chat, chat_input, chat_input_disabled, ask.
  destruct names as [|n names]; [reflexivity|].
  cbn [List.length Nat.ltb Nat.leb is_nil]. script_step.
  destruct (submitted inp) as [p|]; [|reflexivity].
  destruct p as [|c p]; [reflexivity|]. cbn [is_nil negb].
  destruct (submit_query env (n :: names) (c :: p) s) as [[s1 t1] [e|[]]];
    reflexivity.
Qed.

(** Lines 105-239, stage by stage. *)
Lemma main_page_spec (env : Env) (inp : Inputs) (s : Session) :
  main_page env inp s =
  match for_each (messages s) render_message s with
  | (_, t1, inl e) => (s, t1, inl e)
  | (_, t1, inr _) =>
      let names := active_agent_names (active_agents s) in
      match chat env inp names s with
      | (s2, t2, inl e) => (s2, t1 ++ agents_banner names ++ t2, inl e)
      | (s2, t2, inr _) =>
          match latest_download s2 with
          | (_, t3, r) => (s2, t1 ++ agents_banner names ++ t2 ++ t3, r)
          end
      end
  end.
Proof.
  unfold main_page. script_step.
  destruct (transcript_inert (messages s) s) as [Hs _].
  destruct (for_each (messages s) render_message s) as [[s1 t1] [e|[]]];
    unfold final_session in Hs; cbn [fst snd] in Hs; subst s1.
  - reflexivity.
  - cbv zeta. unfold show_active_agents, agents_banner. script_step.
    destruct (negb (is_nil (active_agent_names (active_agents s))));
      script_step;
      destruct (chat env inp (active_agent_names (active_agents s)) s)
        as [[s2 t2] [e|[]]]; try reflexivity;
      destruct (latest_download_inert s2) as [Hd _];
      destruct (latest_download s2) as [[s3 t3] r3];
      unfold final_session in Hd; cbn [fst snd] in Hd; subst s3;
      reflexivity.
Qed.

Lemma app_spec (env : Env) (inp : Inputs) (s : Session) :
  app env inp s =
  if clear_clicked inp
  then (cleared (configured inp s), sidebar_drawn inp s,
        inl (mkExc RerunException []))
  else match main_page env inp (configured inp s) with
       | (s1, t1, r1) => (s1, sidebar_drawn inp s ++ t1, r1)
       end.
Proof.
  unfold app, bind. rewrite sidebar_spec.
  destruct (clear_clicked inp); reflexivity.
Qed.

Lemma checked_twice (v : bool) (h : option bool) :
  checked (checked v h) h = checked v h.
Proof. now destruct h. Qed.

Lemma configured_twice (inp : Inputs) (s : Session) :
  configured (settled inp) (cleared (configured inp s)) = cleared (configured inp s).
Proof.
  unfold configured, cleared, agents_after, settled. cbn.
  now rewrite !checked_twice.
Qed.

(** The chat branch never fails. *)
Lemma chat_returns (env : Env) (inp : Inputs) (names : list pystr) (s : Session) :
  result (chat env inp names s) = ok tt.
Proof.
  rewrite chat_spec. destruct (is_nil names); [reflexivity|].
  destruct (submitted inp) as [p|]; [|reflexivity].
  destruct (is_nil p); [reflexivity|].
  destruct (submit_query_appends env names p s) as [reply [Hr _]].
  destruct (submit_query env names p s) as [[s1 t1] r1]. exact Hr.
Qed.

Lemma chat_keeps_settings (env : Env) (inp : Inputs) (names : list pystr) :
  keeps same_settings (chat env inp names).
Proof.
  intros s. rewrite chat_spec.
  destruct (is_nil names); [apply same_settings_refl|].
  destruct (submitted inp) as [p|]; [|apply same_settings_refl].
  destruct (is_nil p); [apply same_settings_refl|].
  pose proof (submit_query_keeps_settings env names p s) as H.
  destruct (submit_query env names p s) as [[s1 t1] r1]. exact H.
Qed.

Lemma main_page_keeps_settings (env : Env) (inp : Inputs) :
  keeps same_settings (main_page env inp).
Proof.
  intros s. rewrite main_page_spec.
  destruct (for_each (messages s) render_message s) as [[s1 t1] [e|[]]];
    [apply same_settings_refl|].
  cbv zeta.
  pose proof (chat_keeps_settings env inp
                (active_agent_names (active_agents s)) s) as H.
  destruct (chat env inp (active_agent_names (active_agents s)) s)
    as [[s2 t2] [e|[]]]; [exact H|].
  destruct (latest_download s2) as [[s3 t3] r3]. exact H.
Qed.

(** The page below the sidebar never asks for a rerun. *)
Lemma main_page_no_rerun (env : Env) (inp : Inputs) (s : Session) (e : Exc) :
  result (main_page env inp s) = inl e -> is_rerun e = false.
Proof.
  rewrite main_page_spec.
  destruct (transcript_inert (messages s) s) as [_ [_ [_ He]]].
  destruct (for_each (messages s) render_message s) as [[s1 t1] [e1|[]]].
  - intros [= <-]. apply is_rerun_not_Exception. now apply He.
  - cbv zeta.
    pose proof (chat_returns env inp (active_agent_names (active_agents s)) s)
      as Hc.
    destruct (chat env inp (active_agent_names (active_agents s)) s)
      as [[s2 t2] [e2|[]]]; [discriminate|].
    destruct (latest_download_inert s2) as [_ [_ [_ Hd]]].
    destruct (latest_download s2) as [[s3 t3] r3].
    intros H. apply is_rerun_not_Exception. now apply Hd.
Qed.

(** One user event: the script runs once, or twice when the button was
    clicked. *)
Lemma run_spec (env : Env) (inp : Inputs) (s : Session) :
  run env inp s =
  if clear_clicked inp then
    match main_page env (settled inp) (cleared (configured inp s)) with
    | (s2, t2, r2) =>
        (s2,
         sidebar_drawn inp s
           ++ sidebar_drawn (settled inp) (cleared (configured inp s)) ++ t2,
         r2)
    end
  else
    match main_page env inp (configured inp s) with
    | (s1, t1, r1) => (s1, sidebar_drawn inp s ++ t1, r1)
    end.
Proof.
  unfold run. rewrite app_spec.
  destruct (clear_clicked inp) eqn:C.
  - cbn [is_rerun exc_kind]. rewrite app_spec. cbn [clear_clicked settled].
    rewrite configured_twice.
    destruct (main_page env (settled inp) (cleared (configured inp s)))
      as [[s2 t2] r2]. reflexivity.
  - pose proof (main_page_no_rerun env inp (configured inp s)) as H.
    destruct (main_page env inp (configured inp s)) as [[s1 t1] [e|[]]];
      [|reflexivity].
    now rewrite (H e eq_refl).
Qed.

(** What the page below the sidebar does for a session that was just
    cleared and no submission. *)
Lemma main_page_after_clear (env : Env) (inp : Inputs) (s : Session) :
  main_page env (settled inp) (cleared s) =
  (cleared s,
   agents_banner (active_agent_names (active_agents s))
     ++ effects (chat env (settled inp)
                      (active_agent_names (active_agents s)) (cleared s)),
   ok tt).
Proof.
  rewrite main_page_spec. cbn [cleared set_messages set_research_document
    messages for_each ret active_agents ok]. cbv zeta.
  rewrite chat_spec. cbn [submitted settled].
  destruct (is_nil (active_agent_names (active_agents s))); reflexivity.
Qed.

(** C8. The Clear Conversation button: its body empties the message
    list and the last report whatever the session held, and so does
    the whole event (the run with the click and the rerun it asks
    for); clicking again changes nothing. *)
Theorem clear_conversation_resets (env : Env) (inp : Inputs) (s : Session) :
  final_session (clear_session s) = cleared s /\
  messages (cleared s) = [] /\
  research_document (cleared s) = PyNone /\
  cleared (cleared s) = cleared s /\
  messages (final_session (run env (click_clear inp) s)) = [] /\
  research_document (final_session (run env (click_clear inp) s)) = PyNone /\
  final_session (run env (click_clear inp)
                     (final_session (run env (click_clear inp) s)))
  = final_session (run env (click_clear inp) s).
Proof.
  assert (H : forall s0,
             final_session (run env (click_clear inp) s0)
             = cleared (configured inp s0)).
  { intros s0. rewrite run_spec. cbn [clear_clicked click_clear].
    change (configured (click_clear inp) s0) with (configured inp s0).
    rewrite main_page_after_clear. reflexivity. }
  splits; try reflexivity.
  - now rewrite H.
  - now rewrite H.
  - rewrite !H. unfold configured, cleared, agents_after.
    cbn. now rewrite !checked_twice.
Qed.

Lemma run_settings (env : Env) (inp : Inputs) (s : Session) :
  same_settings (configured inp s) (final_session (run env inp s)).
Proof.
  rewrite run_spec. destruct (clear_clicked inp).
  - pose proof (main_page_keeps_settings env (settled inp)
                  (cleared (configured inp s))) as H.
    destruct (main_page env (settled inp) (cleared (configured inp s)))
      as [[s2 t2] r2]. exact H.
  - pose proof (main_page_keeps_settings env inp (configured inp s)) as H.
    destruct (main_page env inp (configured inp s)) as [[s1 t1] r1]. exact H.
Qed.




Lemma interact_fired (env : Env) (a : Action) (b : Browser) (inp : Inputs) :
  fire a b = Some inp ->
  interact env a b =
  {| held := settled inp;
     page := effects (run env inp (session b));
     session := final_session (run env inp (session b)) |}.
Proof.
  intros F. unfold interact. rewrite F.
  now destruct (run env inp (session b)) as [[s t] r].
Qed.






Lemma selected_is_an_option (options : list pystr) (index : nat)
      (h : option nat) :
  (index < List.length options)%nat ->
  exists i, (i < List.length options)%nat /\
            selected options index h = nth i options [].
Proof.
  intros Hi. destruct h as [i|]; cbn [selected].
  - destruct (Nat.lt_ge_cases i (List.length options)) as [Hlt|Hge].
    + exists i. split; [exact Hlt|]. now apply nth_indep.
    + exists index. split; [exact Hi|]. now apply nth_overflow.
  - now exists index.
Qed.

Lemma filter_param_year (i : nat) :
  (i < 5)%nat -> filter_param (nth i year_options []) = ok (fiscal_param 2021 i).
Proof.
  intros H. do 5 (destruct i as [|i]; [vm_compute; reflexivity|]). lia.
Qed.

Lemma filter_param_quarter (j : nat) :
  (j < 5)%nat -> filter_param (nth j quarter_options []) = ok (fiscal_param 0 j).
Proof.
  intros H. do 5 (destruct j as [|j]; [vm_compute; reflexivity|]). lia.
Qed.

Lemma chat_request_of_options (env : Env) (base prompt : pystr) (s : Session)
      (i j : nat) :
  FASTAPI_URL env = Some base ->
  (i < 5)%nat -> (j < 5)%nat ->
  year s = nth i year_options [] ->
  quarter s = nth j quarter_options [] ->
  chat_request env prompt s = ok (chat_post base prompt (active_agents s) i j).
Proof.
  intros U Hi Hj Hy Hq. unfold chat_request.
  rewrite Hy, Hq, (filter_param_year i Hi), (filter_param_quarter j Hj), U.
  reflexivity.
Qed.

Lemma agents_banner_sends_nothing (names : list pystr) :
  requests_sent (agents_banner names) = [].
Proof. unfold agents_banner. now destruct (negb (is_nil names)). Qed.

(** One user event sends at most one request, and only for a
    submitted prompt. *)
Lemma run_requests (env : Env) (inp : Inputs) (s : Session) :
  requests_sent (effects (run env inp s)) = [] \/
  exists prompt req,
    submitted inp = Some prompt /\
    chat_request env prompt (configured inp s) = ok req /\
    requests_sent (effects (run env inp s)) = [req].
Proof.
  rewrite run_spec. destruct (clear_clicked inp).
  - left. rewrite main_page_after_clear. cbn [effects fst snd].
    rewrite chat_spec. cbn [submitted settled].
    rewrite !requests_sent_app, agents_banner_sends_nothing.
    destruct (is_nil (active_agent_names (active_agents (configured inp s))));
      reflexivity.
  - rewrite main_page_spec.
    destruct (transcript_inert (messages (configured inp s)) (configured inp s))
      as [_ [Hr _]].
    destruct (for_each (messages (configured inp s)) render_message
                       (configured inp s)) as [[s1 t1] [e|[]]];
      cbn [effects final_session fst snd] in *.
    { left. now rewrite requests_sent_app, Hr. }
    cbv zeta. rewrite chat_spec.
    set (names := active_agent_names (active_agents (configured inp s))).
    pose proof (agents_banner_sends_nothing names) as Hb.
    assert (Hd : forall s2, requests_sent (effects (latest_download s2)) = []).
    { intros s2. now destruct (latest_download_inert s2) as [_ [H _]]. }
    destruct (is_nil names).
    { left. specialize (Hd (configured inp s)).
      destruct (latest_download (configured inp s)) as [[s3 t3] r3].
      cbn [effects fst snd] in *; script_step.
      now rewrite !requests_sent_app, Hr, Hb, Hd. }
    destruct (submitted inp) as [p|].
    2:{ left. specialize (Hd (configured inp s)).
        destruct (latest_download (configured inp s)) as [[s3 t3] r3].
        cbn [effects fst snd] in *; script_step.
        now rewrite !requests_sent_app, Hr, Hb, Hd. }
    destruct (is_nil p).
    { left. specialize (Hd (configured inp s)).
      destruct (latest_download (configured inp s)) as [[s3 t3] r3].
      cbn [effects fst snd] in *; script_step.
      now rewrite !requests_sent_app, Hr, Hb, Hd. }
    pose proof (submit_query_requests env names p (configured inp s)) as Hq.
    destruct (submit_query env names p (configured inp s)) as [[s2 t2] r2].
    cbn [effects fst snd] in Hq.
    assert (Ht : requests_sent
                   (sidebar_drawn inp s ++ t1 ++ agents_banner names
                                  ++ EvChatInput ask false :: t2)
                 = requests_sent t2).
    { now rewrite !requests_sent_app, Hr, Hb. }
    destruct (chat_request env p (configured inp s)) as [e|req] eqn:R.
    + left. destruct r2 as [e2|[]].
      * script_step. now rewrite Ht.
      * specialize (Hd s2). destruct (latest_download s2) as [[s3 t3] r3].
        cbn [effects fst snd] in *; script_step.
        replace (sidebar_drawn inp s ++ t1 ++ agents_banner names
                               ++ (EvChatInput ask false :: t2) ++ t3)
          with ((sidebar_drawn inp s ++ t1 ++ agents_banner names
                               ++ EvChatInput ask false :: t2) ++ t3)
          by (now rewrite <- !app_assoc).
        now rewrite requests_sent_app, Ht, Hq, Hd.
    + right. exists p, req. split; [reflexivity|]. split; [exact R|].
      destruct r2 as [e2|[]].
      * script_step. now rewrite Ht.
      * specialize (Hd s2). destruct (latest_download s2) as [[s3 t3] r3].
        cbn [effects fst snd] in *; script_step.
        replace (sidebar_drawn inp s ++ t1 ++ agents_banner names
                               ++ (EvChatInput ask false :: t2) ++ t3)
          with ((sidebar_drawn inp s ++ t1 ++ agents_banner names
                               ++ EvChatInput ask false :: t2) ++ t3)
          by (now rewrite <- !app_assoc).
        now rewrite requests_sent_app, Ht, Hq, Hd.
Qed.

(** C5. Every request a user event sends is the one [POST] to [/chat]
    under the configured base URL, with a timeout of 120 seconds and
    exactly the six parameters [message] (the submitted prompt),
    [snowflake_agent], [pinecone_agent] (the retrieval flag),
    [websearch_agent], [year] and [quarter]; the last two are [None]
    when the selector holds its first option and the integer the
    selected option spells otherwise.  No event sends a second
    request. *)
Theorem every_request_is_the_chat_post (env : Env) (inp : Inputs)
        (s : Session) (base : pystr) (req : Request) :
  FASTAPI_URL env = Some base ->
  In req (requests_sent (effects (run env inp s))) ->
  exists prompt i j,
    submitted inp = Some prompt /\
    (i < 5)%nat /\ (j < 5)%nat /\
    year (final_session (run env inp s)) = nth i year_options [] /\
    quarter (final_session (run env inp s)) = nth j quarter_options [] /\
    req = chat_post base prompt
                    (active_agents (final_session (run env inp s))) i j /\
    requests_sent (effects (run env inp s)) = [req].
Proof.
  intros U Hin.
  destruct (run_settings env inp s) as [Ha [Hy Hq]].
  destruct (run_requests env inp s) as [E|[prompt [req' [Hp [R E]]]]].
  { rewrite E in Hin. contradiction. }
  rewrite E in Hin. destruct Hin as [<-|[]].
  destruct (selected_is_an_option year_options 1 (held_year inp)) as [i [Hi Ei]];
    [cbn; lia|].
  destruct (selected_is_an_option quarter_options 0 (held_quarter inp))
    as [j [Hj Ej]]; [cbn; lia|].
  exists prompt, i, j.
  rewrite Ha, Hy, Hq.
  rewrite (chat_request_of_options env base prompt (configured inp s) i j
             U Hi Hj Ei Ej) in R.
  injection R as <-.
  splits; try assumption; reflexivity.
Qed.

(* ----------------------------------------------------------------- *)
(** *** The fiscal filters *)

(** Lines 66-81 store what the two selectors hold and draw the quarter
    selector disabled exactly when the year is ["None"]. *)
Lemma set_filters_spec (inp : Inputs) (s : Session) :
  set_filters inp s =
  (set_quarter (selected quarter_options 0 (held_quarter inp))
     (set_year (selected year_options 1 (held_year inp)) s),
   [EvSelectbox (lit "Fiscal Year") year_options 1 false;
    EvSelectbox (lit "Fiscal Quarter") quarter_options 0
                (pystr_eqb (selected year_options 1 (held_year inp))
                           (lit "None"))],
   ok tt).
Proof.
  unfold set_filters, selectbox. script_step. cbn [year set_year].
  destruct (pystr_eqb (selected year_options 1 (held_year inp)) (lit "None"));
    reflexivity.
Qed.

(** A quarter selector that was never touched gives ["None"]. *)
Lemma untouched_quarter_is_none (inp : Inputs) (s : Session) :
  held_quarter inp = None ->
  quarter (final_session (set_filters inp s)) = lit "None".
Proof. intros H. rewrite set_filters_spec. cbn. now rewrite H. Qed.

(** While the page shows the quarter selector disabled, the browser
    takes no new quarter. *)
Lemma disabled_quarter_takes_no_choice (env : Env) (j : nat) (b : Browser) :
  quarter_disabled (page b) = true -> interact env (PickQuarter j) b = b.
Proof. intros H. unfold interact. cbn [fire]. now rewrite H. Qed.

(* ================================================================= *)
(** ** The scenarios, evaluated *)

Lemma submit_appends_user_then_assistant_witness :
  submitted asking = Some revenue_question /\
  revenue_question <> [] /\
  active_agent_names (active_agents retrieval_2023_q2) <> [] /\
  exists reply,
    messages
      (final_session
         (chat api_revenue asking
               (active_agent_names (active_agents retrieval_2023_q2))
               retrieval_2023_q2))
    = messages retrieval_2023_q2 ++ [user_message revenue_question; reply] /\
    role (user_message revenue_question) = lit "user" /\
    role reply = lit "assistant" /\
    result
      (chat api_revenue asking
            (active_agent_names (active_agents retrieval_2023_q2))
            retrieval_2023_q2) = ok tt.
Proof.
  assert (H1 : submitted asking = Some revenue_question) by reflexivity.
  assert (H2 : revenue_question <> []) by (vm_compute; discriminate).
  assert (H3 : active_agent_names (active_agents retrieval_2023_q2) <> [])
    by (vm_compute; discriminate).
  splits; [exact H1|exact H2|exact H3|].
  exact (submit_appends_user_then_assistant
           api_revenue asking retrieval_2023_q2 revenue_question H1 H2 H3).
Defined.

Lemma every_request_is_the_chat_post_witness :
  FASTAPI_URL api_revenue = Some base_url /\
  In revenue_request
     (requests_sent (effects (run api_revenue asking initial_session))) /\
  requests_sent (effects (run api_revenue asking initial_session))
  = [revenue_request].
Proof.
  assert (U : FASTAPI_URL api_revenue = Some base_url) by reflexivity.
  assert (I : In revenue_request
                 (requests_sent
                    (effects (run api_revenue asking initial_session))))
    by (vm_compute; left; reflexivity).
  splits; [exact U|exact I|].
  destruct (every_request_is_the_chat_post
              api_revenue asking initial_session base_url revenue_request U I)
    as [prompt [i [j [_ [_ [_ [_ [_ [_ E]]]]]]]]].
  exact E.
Defined.

Lemma missing_report_gives_empty_reply_witness :
  chat_request api_empty_object revenue_question retrieval_2023_q2
  = ok revenue_request /\
  post api_empty_object revenue_request
  = inr (mkResponse 200 (lit "{}") (inr (PyDict []))) /\
  dict_get [] (lit "report") = None /\
  research_document
    (final_session
       (submit_query api_empty_object [lit "rag_agent"] revenue_question
                     retrieval_2023_q2))
  = PyStr [] /\
  messages
    (final_session
       (submit_query api_empty_object [lit "rag_agent"] revenue_question
                     retrieval_2023_q2))
  = [user_message revenue_question; report_reply (PyStr [])] /\
  effects
    (latest_download
       (final_session
          (submit_query api_empty_object [lit "rag_agent"] revenue_question
                        retrieval_2023_q2)))
  = [].
Proof.
  assert (R : chat_request api_empty_object revenue_question retrieval_2023_q2
              = ok revenue_request) by reflexivity.
  assert (P : post api_empty_object revenue_request
              = inr (mkResponse 200 (lit "{}") (inr (PyDict []))))
    by reflexivity.
  assert (G : dict_get [] (lit "report") = None) by reflexivity.
  destruct (missing_report_gives_empty_reply
              api_empty_object [lit "rag_agent"] revenue_question
              retrieval_2023_q2 revenue_request _ [] R P eq_refl eq_refl G)
    as [Hd [Hm [_ Hl]]].
  splits; assumption.
Defined.

Lemma unparsable_body_is_a_connection_error_witness :
  chat_request api_html revenue_question retrieval_2023_q2
  = ok revenue_request /\
  post api_html revenue_request
  = inr (mkResponse 200 (lit "<html>ok</html>") not_json) /\
  messages
    (final_session
       (submit_query api_html [lit "rag_agent"] revenue_question
                     retrieval_2023_q2))
  = [user_message revenue_question;
     connection_reply (lit "Expecting value: line 1 column 1 (char 0)")] /\
  research_document
    (final_session
       (submit_query api_html [lit "rag_agent"] revenue_question
                     retrieval_2023_q2))
  = PyNone.
Proof.
  assert (R : chat_request api_html revenue_question retrieval_2023_q2
              = ok revenue_request) by reflexivity.
  assert (P : post api_html revenue_request
              = inr (mkResponse 200 (lit "<html>ok</html>") not_json))
    by reflexivity.
  destruct (unparsable_body_is_a_connection_error
              api_html [lit "rag_agent"] revenue_question retrieval_2023_q2
              revenue_request _ _ R P eq_refl eq_refl)
    as [Hm [_ [_ [_ Hd]]]].
  splits; assumption.
Defined.

(** C2 at a response that carries a chart.  The report is stored and
    recorded as a markdown reply, but the [visualization] field of the
    body is not read: the recorded reply has no [visualization] key
    and no image is drawn. *)
Theorem chart_is_not_attached :
  dict_get chart_fields (lit "visualization")
  = Some (PyStr (lit "iVBORw0KGgo=")) /\
  research_document
    (final_session
       (submit_query api_revenue_chart [lit "rag_agent"] revenue_question
                     retrieval_2023_q2))
  = PyStr (lit "# Revenue") /\
  messages
    (final_session
       (submit_query api_revenue_chart [lit "rag_agent"] revenue_question
                     retrieval_2023_q2))
  = [user_message revenue_question;
     {| role := lit "assistant";
        content := PyStr (lit "# Revenue");
        is_markdown := Some true;
        visualization := None |}] /\
  images
    (effects
       (submit_query api_revenue_chart [lit "rag_agent"] revenue_question
                     retrieval_2023_q2))
  = [].
Proof. vm_compute. repeat split. Qed.

(** The transcript loop does draw a chart that a message carries
    (lines 114-117); the payload here is the PNG signature. *)
Lemma transcript_draws_an_attached_chart :
  images
    (effects
       (render_message
          {| role := lit "assistant";
             content := PyStr (lit "# Revenue");
             is_markdown := Some true;
             visualization := Some (lit "iVBORw0KGgo=") |}
          retrieval_2023_q2))
  = [map byte_of_N [137; 80; 78; 71; 13; 10; 26; 10]].
Proof. vm_compute. reflexivity. Qed.

(** C6 at a session in which a quarter was chosen before the year was
    set to ["None"].  The quarter selector is then drawn disabled, but
    it still holds the quarter chosen earlier and line 70 stores it:
    the session ends with year ["None"] and quarter ["2"], and the
    next request carries no year and quarter 2. *)
Theorem quarter_outlives_year :
  year (session (interactions api_revenue
                              [Tick Rag true; PickQuarter 2; PickYear 0]
                              (open_page api_revenue)))
  = lit "None" /\
  quarter (session (interactions api_revenue
                                 [Tick Rag true; PickQuarter 2; PickYear 0]
                                 (open_page api_revenue)))
  = lit "2" /\
  quarter_disabled
    (page (interactions api_revenue
                        [Tick Rag true; PickQuarter 2; PickYear 0]
                        (open_page api_revenue)))
  = true /\
  requests_sent
    (page (interactions api_revenue
                        [Tick Rag true; PickQuarter 2; PickYear 0;
                         Submit revenue_question]
                        (open_page api_revenue)))
  = [chat_post base_url revenue_question (mkAgents false true false) 0 2] /\
  params (chat_post base_url revenue_question (mkAgents false true false) 0 2)
  = [(lit "message", PyStr revenue_question);
     (lit "snowflake_agent", PyBool false);
     (lit "pinecone_agent", PyBool true);
     (lit "websearch_agent", PyBool false);
     (lit "year", PyNone);
     (lit "quarter", PyInt 2)].
Proof. vm_compute. repeat split. Qed.

(* ================================================================= *)
(** * Further properties of the script *)

(** ** The chat handler, path by path *)

(** X1. Transport failure (lines 148-173 and 221-229): when
    [requests.post] raises, the handler has sent that one request and
    does not try again; the transcript gains the user's message and one
    non-markdown reply, the connection-error sentence followed by the
    text of the exception; the banner carries the same text; the last
    report is left as it was. *)
Theorem transport_failure_is_recorded (env : Env) (names : list pystr)
        (prompt : pystr) (s : Session) (req : Request) (msg : pystr) :
  chat_request env prompt s = ok req ->
  post env req = inl msg ->
  result (submit_query env names prompt s) = ok tt /\
  messages (final_session (submit_query env names prompt s))
  = messages s ++ [user_message prompt; connection_reply msg] /\
  is_markdown (connection_reply msg) = Some false /\
  banners (effects (submit_query env names prompt s))
  = [lit "Error connecting to API: " ++ msg] /\
  requests_sent (effects (submit_query env names prompt s)) = [req] /\
  research_document (final_session (submit_query env names prompt s))
  = research_document s.
Proof.
  intros R P.
  unfold submit_query, try_except, attempt, requests_post. script_step.
  fold (user_message prompt).
  change (chat_request env prompt (append_message (user_message prompt) s))
    with (chat_request env prompt s).
  rewrite R. script_step. rewrite P. script_step.
  cbn [is_Exception exc_kind]. unfold on_exception. script_step.
  splits; try reflexivity.
  cbn [append_message set_messages messages exc_str].
  now rewrite <- app_assoc.
Qed.

Lemma transport_failure_is_recorded_witness :
  chat_request api_down revenue_question retrieval_2023_q2 = ok revenue_request /\
  post api_down revenue_request = inl (lit "Connection refused") /\
  messages
    (final_session
       (submit_query api_down [lit "rag_agent"] revenue_question
                     retrieval_2023_q2))
  = [user_message revenue_question;
     connection_reply (lit "Connection refused")] /\
  requests_sent
    (effects
       (submit_query api_down [lit "rag_agent"] revenue_question
                     retrieval_2023_q2))
  = [revenue_request].
Proof.
  assert (R : chat_request api_down revenue_question retrieval_2023_q2
              = ok revenue_request) by reflexivity.
  assert (P : post api_down revenue_request = inl (lit "Connection refused"))
    by reflexivity.
  destruct (transport_failure_is_recorded
              api_down [lit "rag_agent"] revenue_question retrieval_2023_q2
              revenue_request _ R P) as [_ [Hm [_ [_ [Hr _]]]]].
  splits; assumption.
Defined.

(** X2. A successful exchange (lines 175-211 and 234-239): for status
    200 and a JSON object whose [report] is a string of scalar values,
    the handler sends one request, stores the report, draws it as
    markdown, and records it as a markdown reply; the link it draws
    under the reply reads back as the report, and so does the sidebar
    link drawn afterwards unless the report is empty. *)
Theorem successful_exchange (env : Env) (names : list pystr)
        (prompt : pystr) (s : Session) (req : Request) (response : Response)
        (fields : list (pystr * PyVal)) (report : pystr) :
  chat_request env prompt s = ok req ->
  post env req = inr response ->
  status_code response = 200%Z ->
  json response = inr (PyDict fields) ->
  dict_get fields (lit "report") = Some (PyStr report) ->
  well_formed report ->
  exists href,
    read_link href = ok report /\
    submit_query env names prompt s
    = (append_message (report_reply (PyStr report))
         (set_research_document (PyStr report)
            (append_message (user_message prompt) s)),
       prologue names prompt req
         ++ [EvPrint (lit "Response: ") (PyDict fields);
             EvMarkdown (PyStr report);
             EvHtml href],
       ok tt) /\
    (report <> [] ->
     effects (latest_download
                (final_session (submit_query env names prompt s)))
     = [EvSidebarMarkdown (lit "### Download Latest Research");
        EvSidebarHtml href]).
Proof.
  intros R P Hs J G W.
  destruct (utf8_encode_total report W) as [bs Hbs].
  destruct (read_back_encoded report (lit "Research_Document.md") bs Hbs)
    as [href [L [_ Hr]]].
  exists href. split; [exact Hr|].
  assert (E : submit_query env names prompt s
              = (append_message (report_reply (PyStr report))
                   (set_research_document (PyStr report)
                      (append_message (user_message prompt) s)),
                 prologue names prompt req
                   ++ [EvPrint (lit "Response: ") (PyDict fields);
                       EvMarkdown (PyStr report);
                       EvHtml href],
                 ok tt)).
  { rewrite (submit_query_on_response _ _ _ _ _ _ R P).
    rewrite Hs. cbn [Z.eqb Pos.eqb].
    unfold on_success, response_json. rewrite J. script_step.
    unfold py_get. rewrite G. script_step. rewrite L. script_step.
    reflexivity. }
  split; [exact E|].
  intros Hne. rewrite E. cbn [final_session fst].
  unfold latest_download.
  cbv beta iota delta [bind emit get lift ret ok effects fst snd].
  cbn [research_document append_message set_messages set_research_document].
  destruct report as [|c report]; [contradiction|].
  cbn [truthy is_nil negb]. rewrite L. reflexivity.
Qed.

Lemma successful_exchange_witness :
  well_formed (lit "# Revenue") /\
  exists href,
    read_link href = ok (lit "# Revenue") /\
    submit_query api_revenue [lit "rag_agent"] revenue_question
                 retrieval_2023_q2
    = (append_message (report_reply (PyStr (lit "# Revenue")))
         (set_research_document (PyStr (lit "# Revenue"))
            (append_message (user_message revenue_question)
                            retrieval_2023_q2)),
       prologue [lit "rag_agent"] revenue_question revenue_request
         ++ [EvPrint (lit "Response: ") (PyDict revenue_fields);
             EvMarkdown (PyStr (lit "# Revenue"));
             EvHtml href],
       ok tt).
Proof.
  assert (W : well_formed (lit "# Revenue")).
  { unfold well_formed.
    let l := eval vm_compute in (lit "# Revenue") in
    change (lit "# Revenue") with l.
    repeat (apply Forall_cons; [unfold scalar_value; lia|]).
    apply Forall_nil. }
  split; [exact W|].
  destruct (successful_exchange
              api_revenue [lit "rag_agent"] revenue_question retrieval_2023_q2
              revenue_request _ revenue_fields (lit "# Revenue")
              eq_refl eq_refl eq_refl eq_refl eq_refl W)
    as [href [Hr [E _]]].
  exists href. split; assumption.
Defined.

(** X3. A report that cannot be encoded (lines 177-229): for status
    200 and a JSON object whose [report] is not a string, or is a
    string with a lone surrogate, line 182 has already stored the value
    as the last report when line 198 fails; the reply recorded is the
    non-markdown connection-error message, yet the last report is the
    new value. *)
Theorem unencodable_report_is_stored (env : Env) (names : list pystr)
        (prompt : pystr) (s : Session) (req : Request) (response : Response)
        (fields : list (pystr * PyVal)) (v : PyVal) (e : Exc) :
  chat_request env prompt s = ok req ->
  post env req = inr response ->
  status_code response = 200%Z ->
  json response = inr (PyDict fields) ->
  dict_get fields (lit "report") = Some v ->
  py_encode v = inl e ->
  research_document (final_session (submit_query env names prompt s)) = v /\
  exists reply,
    messages (final_session (submit_query env names prompt s))
    = messages s ++ [user_message prompt; reply] /\
    role reply = lit "assistant" /\
    is_markdown reply = Some false /\
    mentions (lit "Error: Unable to connect to the research API.") reply = true.
Proof.
  intros R P Hs J G E.
  rewrite (submit_query_on_response _ _ _ _ _ _ R P).
  rewrite Hs. cbn [Z.eqb Pos.eqb].
  unfold on_success, response_json. rewrite J. script_step.
  unfold py_get. rewrite G. script_step.
  unfold get_download_link. rewrite E. script_step.
  rewrite (py_encode_exception v e E). unfold on_exception. script_step.
  split; [reflexivity|].
  exists (connection_reply (exc_str e)).
  splits; try reflexivity.
  cbn [append_message set_messages set_research_document messages].
  now rewrite <- app_assoc.
Qed.

Lemma unencodable_report_is_stored_witness :
  chat_request (api_reports (PyInt 5)) revenue_question retrieval_2023_q2
  = ok revenue_request /\
  py_encode (PyInt 5) = inl (no_attribute (PyInt 5) "encode") /\
  research_document
    (final_session
       (submit_query (api_reports (PyInt 5)) [lit "rag_agent"]
                     revenue_question retrieval_2023_q2))
  = PyInt 5.
Proof.
  assert (R : chat_request (api_reports (PyInt 5)) revenue_question
                           retrieval_2023_q2 = ok revenue_request)
    by reflexivity.
  assert (E : py_encode (PyInt 5) = inl (no_attribute (PyInt 5) "encode"))
    by reflexivity.
  destruct (unencodable_report_is_stored
              (api_reports (PyInt 5)) [lit "rag_agent"] revenue_question
              retrieval_2023_q2 revenue_request _ _ (PyInt 5) _
              R eq_refl eq_refl eq_refl eq_refl E) as [Hd _].
  splits; assumption.
Defined.



(** ** The sidebar link *)



(** ** The download link *)

Lemma b64encode_length (bs : list byte) :
  List.length (b64encode bs) = (4 * ((List.length bs + 2) / 3))%nat.
Proof.
  induction bs as [|a|a b|a b c rest IH] using list_ind3;
    try reflexivity.
  cbn [b64encode List.length]. rewrite IH.
  replace (S (S (S (List.length rest))) + 2)%nat
    with ((List.length rest + 2) + 1 * 3)%nat by lia.
  rewrite Nat.div_add by lia. lia.
Qed.



Lemma get_download_link_inv (v : PyVal) (name href : pystr) :
  get_download_link v name = ok href ->
  exists s bs, v = PyStr s /\ utf8_encode s = Some bs.
Proof.
  intros H. destruct v as [| | |s| |]; try discriminate.
  destruct (utf8_encode s) as [bs|] eqn:Hbs; [now exists s, bs|].
  exfalso. revert H. unfold get_download_link, py_encode, str_encode.
  rewrite Hbs. destruct (first_surrogate 0 s); discriminate.
Qed.

(** X6. The shape of a download link (lines 93-102): whenever
    [get_download_link] returns, its argument was a string, and the
    link is the fixed opening of the anchor, the base64 text of the
    UTF-8 encoding, and the closing that names the file.  The base64
    text has four characters for every three bytes, rounded up, all of
    them letters, digits, [+], [/] or [=]: nothing in the content can
    end the quoted [href] early. *)
Theorem download_link_shape (file_content : PyVal) (file_name href : pystr) :
  get_download_link file_content file_name = ok href ->
  exists s bs,
    file_content = PyStr s /\
    utf8_encode s = Some bs /\
    href = anchor_opening ++ map Byte.to_N (b64encode bs)
                          ++ anchor_closing file_name /\
    link_payload href = map Byte.to_N (b64encode bs) /\
    Forall (fun c => is_b64_char c = true) (b64encode bs) /\
    List.length (b64encode bs) = (4 * ((List.length bs + 2) / 3))%nat.
Proof.
  intros H.
  destruct (get_download_link_inv _ _ _ H) as [s [bs [-> Hbs]]].
  rewrite (get_download_link_encoded s file_name bs Hbs) in H.
  injection H as <-. exists s, bs.
  split; [reflexivity|]. split; [exact Hbs|].
  split; [unfold anchor_opening, anchor_closing; now rewrite <- !app_assoc|].
  split; [apply link_payload_of_anchor, b64_text_no_quote|].
  split; [|apply b64encode_length].
  eapply Forall_impl; [|apply b64encode_out]. apply b64_out_kept.
Qed.

Lemma download_link_shape_witness :
  exists href s bs,
    get_download_link (PyStr (lit "# Revenue")) (lit "Research_Document.md")
    = ok href /\
    PyStr (lit "# Revenue") = PyStr s /\
    utf8_encode s = Some bs /\
    link_payload href = map Byte.to_N (b64encode bs).
Proof.
  destruct (get_download_link (PyStr (lit "# Revenue"))
                              (lit "Research_Document.md"))
    as [e|href] eqn:L; [vm_compute in L; discriminate|].
  destruct (download_link_shape _ _ _ L) as [s [bs [E [U [_ [P _]]]]]].
  exists href, s, bs. splits; [reflexivity|exact E|exact U|exact P].
Defined.


(** ** The transcript *)


(** The loop over messages that carry no visualization. *)
Lemma transcript_drawn (ms : list Message) (s : Session) :
  Forall (fun m => visualization m = None) ms ->
  for_each ms render_message s = (s, flat_map drawn ms, ok tt).
Proof.
  induction 1 as [|m ms Hm _ IH]; [reflexivity|].
  cbn [for_each flat_map]. unfold bind at 1.
  assert (E : render_message m s = (s, drawn m, ok tt)).
  { unfold render_message, drawn. rewrite Hm. script_step.
    destruct (pystr_eqb (role m) (lit "assistant")
              && match is_markdown m with Some b => b | None => false end);
      reflexivity. }
  rewrite E. cbv beta iota delta [ok]. rewrite IH. reflexivity.
Qed.

Lemma exchanges_no_visualization (ms : list Message) :
  exchanges ms -> Forall (fun m => visualization m = None) ms.
Proof.
  induction 1 as [|ms prompt reply _ IH _ Hv]; [constructor|].
  apply Forall_app. split; [exact IH|].
  repeat constructor. exact Hv.
Qed.

Lemma exchanges_even (ms : list Message) :
  exchanges ms -> Nat.even (List.length ms) = true.
Proof.
  induction 1 as [|ms prompt reply _ IH _ _]; [reflexivity|].
  rewrite length_app. cbn [List.length].
  replace (List.length ms + 2)%nat with (S (S (List.length ms))) by lia.
  exact IH.
Qed.

(** What one user event does to the messages. *)
Lemma run_messages (env : Env) (inp : Inputs) (s : Session) :
  messages (final_session (run env inp s)) = [] \/
  messages (final_session (run env inp s)) = messages s \/
  exists prompt reply,
    messages (final_session (run env inp s))
    = messages s ++ [user_message prompt; reply] /\
    role reply = lit "assistant" /\
    visualization reply = None.
Proof.
  rewrite run_spec. destruct (clear_clicked inp).
  - left. now rewrite main_page_after_clear.
  - rewrite main_page_spec.
    destruct (for_each (messages (configured inp s)) render_message
                       (configured inp s)) as [[s1 t1] [e|[]]].
    { right. left. reflexivity. }
    cbv zeta. rewrite chat_spec.
    set (names := active_agent_names (active_agents (configured inp s))).
    destruct (is_nil names).
    { right. left. script_step.
      now destruct (latest_download (configured inp s)) as [[s3 t3] r3]. }
    destruct (submitted inp) as [p|].
    2:{ right. left. script_step.
        now destruct (latest_download (configured inp s)) as [[s3 t3] r3]. }
    destruct (is_nil p).
    { right. left. script_step.
      now destruct (latest_download (configured inp s)) as [[s3 t3] r3]. }
    right. right.
    destruct (submit_query_appends env names p (configured inp s))
      as [reply [Hr [Hm [Hrole Hviz]]]].
    exists p, reply.
    destruct (submit_query env names p (configured inp s)) as [[s2 t2] r2].
    cbn [result final_session fst snd] in Hr, Hm. subst r2.
    script_step. destruct (latest_download s2) as [[s3 t3] r3].
    splits; assumption.
Qed.

Lemma run_exchanges (env : Env) (inp : Inputs) (s : Session) :
  exchanges (messages s) ->
  exchanges (messages (final_session (run env inp s))).
Proof.
  intros H.
  destruct (run_messages env inp s) as [E|[E|[p [reply [E [Hr Hv]]]]]];
    rewrite E.
  - constructor.
  - exact H.
  - now constructor.
Qed.

Lemma interact_exchanges (env : Env) (a : Action) (b : Browser) :
  exchanges (messages (session b)) ->
  exchanges (messages (session (interact env a b))).
Proof.
  intros H. destruct (fire a b) as [inp|] eqn:F.
  - rewrite (interact_fired _ _ _ _ F). cbn [session]. now apply run_exchanges.
  - unfold interact. now rewrite F.
Qed.

Lemma reachable_exchanges (env : Env) (acts : list Action) :
  exchanges (messages (session (interactions env acts (open_page env)))).
Proof.
  assert (H : forall b, exchanges (messages (session b)) ->
                        exchanges (messages (session (interactions env acts b)))).
  { unfold interactions. induction acts as [|a acts IH]; intros b Hb;
      [exact Hb|].
    cbn [fold_left]. apply IH. now apply interact_exchanges. }
  apply H. unfold open_page.
  pose proof (run_exchanges env untouched initial_session no_exchange) as R.
  now destruct (run env untouched initial_session) as [[s t] r].
Qed.

(** X9. The transcript is a sequence of exchanges (lines 83-86 and
    134-229): whatever the user does on a freshly opened page and
    whatever the API answers, the message list is made of pairs, a
    user message followed by an assistant reply, and no message
    carries a visualization; in particular its length is even. *)
Theorem transcript_is_made_of_exchanges (env : Env) (acts : list Action) :
  exchanges (messages (session (interactions env acts (open_page env)))) /\
  Forall (fun m => visualization m = None)
         (messages (session (interactions env acts (open_page env)))) /\
  Nat.even
    (List.length (messages (session (interactions env acts (open_page env)))))
  = true.
Proof.
  pose proof (reachable_exchanges env acts) as H.
  splits; [exact H|now apply exchanges_no_visualization|
           now apply exchanges_even].
Qed.

(** X10. Drawing the transcript (lines 106-119): on any session the
    user can reach from a freshly opened page the loop does not fail
    and does not touch the session; it draws the messages in order,
    each as its role followed by its content, as markdown for a
    markdown reply of the assistant and as plain text otherwise. *)
Theorem transcript_is_drawn_in_order (env : Env) (acts : list Action) :
  for_each (messages (session (interactions env acts (open_page env))))
           render_message (session (interactions env acts (open_page env)))
  = (session (interactions env acts (open_page env)),
     flat_map drawn
              (messages (session (interactions env acts (open_page env)))),
     ok tt).
Proof.
  apply transcript_drawn, exchanges_no_visualization, reachable_exchanges.
Qed.

(** ** Whole user events *)

Lemma emits_for_each {A} (P : Effect -> Prop) (xs : list A)
      (body : A -> Script unit) :
  (forall x, emits P (body x)) -> emits P (for_each xs body).
Proof.
  intros H. induction xs as [|x xs IH]; cbn [for_each].
  - apply emits_ret.
  - apply emits_bind; [apply H|intros _; exact IH].
Qed.

Lemma main_page_draws_no_selector (env : Env) (inp : Inputs) :
  emits not_a_selectbox (main_page env inp).
Proof.
  unfold main_page. apply emits_bind; [apply emits_get|intros s].
  apply emits_bind.
  { apply emits_for_each. intros m. unfold render_message. emits_steps. }
  intros _. apply emits_bind; [apply emits_get|intros s'].
  cbv zeta. apply emits_bind.
  { unfold show_active_agents. emits_steps. }
  intros _. apply emits_bind.
  { unfold chat, chat_input, chat_input_disabled, submit_query, attempt,
      on_success, on_failure, on_exception. emits_steps. }
  intros _. unfold latest_download. emits_steps.
Qed.

Lemma no_selectors (t : list Effect) :
  Forall not_a_selectbox t -> forall acc, fold_left quarter_flag t acc = acc.
Proof.
  induction 1 as [|e t He _ IH]; intros acc; [reflexivity|].
  destruct e; cbn in *; try apply IH. contradiction.
Qed.

Lemma sidebar_quarter_flag (inp : Inputs) (s : Session) (acc : bool) :
  fold_left quarter_flag (sidebar_drawn inp s) acc
  = pystr_eqb (selected year_options 1 (held_year inp)) (lit "None").
Proof.
  unfold sidebar_drawn. cbn [fold_left quarter_flag].
  replace (pystr_eqb (lit "Fiscal Year") (lit "Fiscal Quarter")) with false
    by (vm_compute; reflexivity).
  replace (pystr_eqb (lit "Fiscal Quarter") (lit "Fiscal Quarter")) with true
    by (vm_compute; reflexivity).
  reflexivity.
Qed.

(** After any user event the quarter selector is drawn disabled
    exactly when the year selector holds ["None"]. *)
Lemma run_quarter_flag (env : Env) (inp : Inputs) (s : Session) :
  quarter_disabled (effects (run env inp s))
  = pystr_eqb (selected year_options 1 (held_year inp)) (lit "None").
Proof.
  change (quarter_disabled (effects (run env inp s)))
    with (fold_left quarter_flag (effects (run env inp s)) true).
  rewrite run_spec. destruct (clear_clicked inp).
  - pose proof (main_page_draws_no_selector env (settled inp)
                  (cleared (configured inp s))) as H.
    destruct (main_page env (settled inp) (cleared (configured inp s)))
      as [[s2 t2] r2]. cbn [effects fst snd] in *.
    rewrite !fold_left_app, (no_selectors _ H), sidebar_quarter_flag.
    reflexivity.
  - pose proof (main_page_draws_no_selector env inp (configured inp s)) as H.
    destruct (main_page env inp (configured inp s)) as [[s1 t1] r1].
    cbn [effects fst snd] in *.
    now rewrite fold_left_app, (no_selectors _ H), sidebar_quarter_flag.
Qed.

(** A run with nothing submitted and no click: the transcript, the
    last report are as before and nothing is sent. *)
Lemma run_quiet (env : Env) (inp : Inputs) (s : Session) :
  clear_clicked inp = false ->
  submitted inp = None ->
  final_session (run env inp s) = configured inp s /\
  requests_sent (effects (run env inp s)) = [].
Proof.
  intros C S. rewrite run_spec, C, main_page_spec.
  destruct (transcript_inert (messages (configured inp s)) (configured inp s))
    as [_ [Hr _]].
  destruct (for_each (messages (configured inp s)) render_message
                     (configured inp s)) as [[s1 t1] [e|[]]];
    cbn [effects fst snd] in Hr.
  { script_step. split; [reflexivity|]. now rewrite requests_sent_app, Hr. }
  cbv zeta. rewrite chat_spec, S.
  destruct (latest_download_inert (configured inp s)) as [_ [Hd _]].
  destruct (is_nil (active_agent_names (active_agents (configured inp s))));
    script_step;
    destruct (latest_download (configured inp s)) as [[s3 t3] r3];
    cbn [effects fst snd] in Hd; (split; [reflexivity|]);
    now rewrite !requests_sent_app, Hr, agents_banner_sends_nothing, Hd.
Qed.

Lemma chat_request_formatted (env : Env) (prompt : pystr) (s : Session)
      (i j : nat) :
  (i < 5)%nat -> (j < 5)%nat ->
  year s = nth i year_options [] ->
  quarter s = nth j quarter_options [] ->
  chat_request env prompt s
  = ok (chat_post (format_url (FASTAPI_URL env)) prompt (active_agents s) i j).
Proof.
  intros Hi Hj Hy Hq. unfold chat_request.
  now rewrite Hy, Hq, (filter_param_year i Hi), (filter_param_quarter j Hj).
Qed.

(** After the sidebar the arguments of the request can always be
    built: the selectors hold options, whatever the widgets sent. *)
Lemma chat_request_configured (env : Env) (prompt : pystr) (inp : Inputs)
      (s : Session) :
  exists i j,
    (i < 5)%nat /\ (j < 5)%nat /\
    year (configured inp s) = nth i year_options [] /\
    quarter (configured inp s) = nth j quarter_options [] /\
    chat_request env prompt (configured inp s)
    = ok (chat_post (format_url (FASTAPI_URL env)) prompt
                    (agents_after inp (active_agents s)) i j).
Proof.
  destruct (selected_is_an_option year_options 1 (held_year inp)) as [i [Hi Ei]];
    [cbn; lia|].
  destruct (selected_is_an_option quarter_options 0 (held_quarter inp))
    as [j [Hj Ej]]; [cbn; lia|].
  exists i, j. splits; try assumption.
  now apply chat_request_formatted.
Qed.

(** An accepted submission: one request, one exchange. *)
Lemma run_accepts (env : Env) (inp : Inputs) (s : Session) (p : pystr) :
  clear_clicked inp = false ->
  submitted inp = Some p ->
  p <> [] ->
  active_agent_names (agents_after inp (active_agents s)) <> [] ->
  Forall (fun m => visualization m = None) (messages s) ->
  exists i j reply,
    (i < 5)%nat /\ (j < 5)%nat /\
    year (configured inp s) = nth i year_options [] /\
    quarter (configured inp s) = nth j quarter_options [] /\
    requests_sent (effects (run env inp s))
    = [chat_post (format_url (FASTAPI_URL env)) p
                 (agents_after inp (active_agents s)) i j] /\
    messages (final_session (run env inp s))
    = messages s ++ [user_message p; reply] /\
    role reply = lit "assistant".
Proof.
  intros C S Hp Hn Hv.
  destruct (chat_request_configured env p inp s) as [i [j [Hi [Hj [Ey [Eq R]]]]]].
  rewrite run_spec, C, main_page_spec.
  rewrite (transcript_drawn (messages (configured inp s)) (configured inp s) Hv).
  cbv beta iota zeta delta [ok]. rewrite chat_spec, S.
  change (active_agents (configured inp s))
    with (agents_after inp (active_agents s)).
  destruct (active_agent_names (agents_after inp (active_agents s)))
    as [|n names] eqn:En; [contradiction|].
  destruct p as [|c p]; [contradiction|]. cbn [is_nil].
  destruct (submit_query_appends env (n :: names) (c :: p) (configured inp s))
    as [reply [Hr [Hm [Hrole _]]]].
  pose proof (submit_query_requests env (n :: names) (c :: p)
                                    (configured inp s)) as Hq.
  rewrite R in Hq.
  destruct (submit_query env (n :: names) (c :: p) (configured inp s))
    as [[s2 t2] r2].
  cbn [result final_session effects fst snd] in Hr, Hm, Hq. subst r2.
  cbv beta iota delta [ok].
  destruct (latest_download_inert s2) as [_ [Hd _]].
  destruct (latest_download s2) as [[s3 t3] r3]. cbn [effects fst snd] in Hd.
  exists i, j, reply. script_step.
  splits; try assumption.
  rewrite !requests_sent_app.
  change (requests_sent (sidebar_drawn inp s)) with (@nil Request).
  rewrite agents_banner_sends_nothing.
  replace (requests_sent (flat_map drawn (messages (configured inp s))))
    with (@nil Request).
  - cbn [Datatypes.app requests_sent flat_map].
    fold (requests_sent t2). now rewrite Hq, Hd.
  - symmetry. destruct (transcript_inert (messages (configured inp s))
                                         (configured inp s)) as [_ [H _]].
    now rewrite (transcript_drawn _ _ Hv) in H.
Qed.

Lemma sidebar_chat_flag (inp : Inputs) (s : Session) (acc : bool) :
  fold_left chat_flag (sidebar_drawn inp s) acc = acc.
Proof. reflexivity. Qed.

Lemma banner_chat_flag (names : list pystr) (acc : bool) :
  fold_left chat_flag (agents_banner names) acc = acc.
Proof. unfold agents_banner. now destruct (negb (is_nil names)). Qed.

(** After any user event on a transcript without visualizations the
    chat input is drawn, and drawn disabled exactly when no flag is
    set. *)
Lemma run_chat_flag (env : Env) (inp : Inputs) (s : Session) :
  Forall (fun m => visualization m = None) (messages s) ->
  chat_disabled (effects (run env inp s))
  = is_nil (active_agent_names (agents_after inp (active_agents s))).
Proof.
  intros Hv. rewrite chat_disabled_fold, run_spec.
  set (names := active_agent_names (agents_after inp (active_agents s))).
  destruct (clear_clicked inp).
  - rewrite main_page_after_clear. cbn [effects fst snd].
    rewrite chat_spec. cbn [submitted settled].
    change (active_agent_names (active_agents (configured inp s))) with names.
    rewrite !fold_left_app, !sidebar_chat_flag, banner_chat_flag.
    now destruct (is_nil names).
  - rewrite main_page_spec.
    destruct (transcript_inert (messages (configured inp s)) (configured inp s))
      as [_ [_ [Hc _]]].
    change (messages (configured inp s)) with (messages s) in *.
    rewrite (transcript_drawn _ (configured inp s) Hv) in Hc.
    rewrite (transcript_drawn _ (configured inp s) Hv).
    cbn [effects fst snd] in Hc.
    cbv beta iota zeta delta [ok]. rewrite chat_spec.
    change (active_agent_names (active_agents (configured inp s))) with names.
    assert (D : forall s2 acc,
               fold_left chat_flag (effects (latest_download s2)) acc = acc).
    { intros s2 acc. now destruct (latest_download_inert s2) as [_ [_ [H _]]]. }
    destruct (is_nil names).
    { script_step. specialize (D (configured inp s)).
      destruct (latest_download (configured inp s)) as [[s3 t3] r3].
      cbn [effects fst snd] in *.
      rewrite !fold_left_app, sidebar_chat_flag, Hc, banner_chat_flag.
      cbn [fold_left chat_flag]. apply D. }
    destruct (submitted inp) as [p|].
    2:{ script_step. specialize (D (configured inp s)).
        destruct (latest_download (configured inp s)) as [[s3 t3] r3].
        cbn [effects fst snd] in *.
        rewrite !fold_left_app, sidebar_chat_flag, Hc, banner_chat_flag.
        cbn [fold_left chat_flag]. apply D. }
    destruct (is_nil p).
    { script_step. specialize (D (configured inp s)).
      destruct (latest_download (configured inp s)) as [[s3 t3] r3].
      cbn [effects fst snd] in *.
      rewrite !fold_left_app, sidebar_chat_flag, Hc, banner_chat_flag.
      cbn [fold_left chat_flag]. apply D. }
    destruct (submit_query_appends env names p (configured inp s))
      as [reply [Hr _]].
    pose proof (submit_query_draws_no_chat_input env names p
                                                 (configured inp s)) as Hq.
    destruct (submit_query env names p (configured inp s)) as [[s2 t2] r2].
    cbn [result effects fst snd] in Hr, Hq. subst r2.
    script_step. specialize (D s2).
    destruct (latest_download s2) as [[s3 t3] r3].
    cbn [effects fst snd] in *.
    rewrite !fold_left_app, sidebar_chat_flag, Hc, banner_chat_flag.
    cbn [fold_left chat_flag Datatypes.app].
    rewrite (no_chat_inputs _ Hq). apply D.
Qed.

Lemma after_run_settled (env : Env) (inp : Inputs) (s : Session) :
  exchanges (messages s) ->
  settled_page {| held := settled inp;
                  page := effects (run env inp s);
                  session := final_session (run env inp s) |}.
Proof.
  intros Hx.
  destruct (run_settings env inp s) as [Ha [Hy Hq]].
  unfold settled_page. cbn [held page session].
  rewrite Ha, Hy, Hq. cbn [configured active_agents year quarter].
  splits; try reflexivity.
  - unfold agents_after, settled. cbn. now rewrite !checked_twice.
  - now apply run_exchanges.
  - apply run_chat_flag. now apply exchanges_no_visualization.
  - apply run_quarter_flag.
Qed.

Lemma interact_settled (env : Env) (a : Action) (b : Browser) :
  settled_page b -> settled_page (interact env a b).
Proof.
  intros Hb. destruct (fire a b) as [inp|] eqn:F.
  - rewrite (interact_fired _ _ _ _ F). apply after_run_settled.
    now destruct Hb as [_ [_ [_ [_ [_ [Hx _]]]]]].
  - unfold interact. now rewrite F.
Qed.

Lemma reachable_settled (env : Env) (acts : list Action) :
  settled_page (interactions env acts (open_page env)).
Proof.
  assert (H : forall b, settled_page b ->
                        settled_page (interactions env acts b)).
  { unfold interactions. induction acts as [|a acts IH]; intros b Hb;
      [exact Hb|].
    cbn [fold_left]. apply IH. now apply interact_settled. }
  apply H. unfold open_page.
  pose proof (after_run_settled env untouched initial_session no_exchange) as R.
  now destruct (run env untouched initial_session) as [[s t] r].
Qed.

Lemma no_names_iff (a : Agents) :
  is_nil (active_agent_names a) = true <-> a = mkAgents false false false.
Proof.
  destruct a as [[] [] []]; split; intros H;
    first [reflexivity | discriminate H | (vm_compute in H; discriminate H)].
Qed.




(** X13. Events that only configure (lines 41-81 and 105-239): on a
    page the user can reach, ticking a box or choosing a year or a
    quarter leaves the transcript and the last report as they were, and
    the run it starts sends no request. *)
Theorem configuring_leaves_the_transcript (env : Env) (acts : list Action)
        (a : Action) :
  match a with
  | ClickClear | Submit _ => True
  | _ =>
      messages (session (interact env a (interactions env acts (open_page env))))
      = messages (session (interactions env acts (open_page env))) /\
      research_document
        (session (interact env a (interactions env acts (open_page env))))
      = research_document (session (interactions env acts (open_page env))) /\
      (interact env a (interactions env acts (open_page env))
       = interactions env acts (open_page env) \/
       requests_sent
         (page (interact env a (interactions env acts (open_page env)))) = [])
  end.
Proof.
  destruct (reachable_settled env acts) as [C [S _]].
  set (b := interactions env acts (open_page env)) in *.
  assert (H : forall inp,
             fire a b = Some inp ->
             clear_clicked inp = false -> submitted inp = None ->
             messages (session (interact env a b)) = messages (session b) /\
             research_document (session (interact env a b))
             = research_document (session b) /\
             (interact env a b = b \/
              requests_sent (page (interact env a b)) = [])).
  { intros inp F C' S'. rewrite (interact_fired _ _ _ _ F). cbn [session page].
    destruct (run_quiet env inp (session b) C' S') as [E R]. rewrite E.
    splits; [reflexivity|reflexivity|now right]. }
  assert (N : fire a b = None ->
              messages (session (interact env a b)) = messages (session b) /\
              research_document (session (interact env a b))
              = research_document (session b) /\
              (interact env a b = b \/
               requests_sent (page (interact env a b)) = [])).
  { intros F. unfold interact. rewrite F. splits; [reflexivity|reflexivity|].
    now left. }
  destruct a as [name v|i|j| |p]; try exact I.
  - apply (H (hold_agent name v (held b)) eq_refl); now destruct name.
  - cbn [fire] in *. destruct (i <? List.length year_options)%nat.
    + now apply (H (hold_year i (held b)) eq_refl).
    + now apply N.
  - cbn [fire] in *.
    destruct (negb (quarter_disabled (page b))
              && (j <? List.length quarter_options)%nat).
    + now apply (H (hold_quarter j (held b)) eq_refl).
    + now apply N.
Qed.

(** X14. An accepted submission (lines 132-229): on a page the user
    can reach, with some flag set, submitting a non-empty prompt sends
    exactly one request, the chat request for that prompt with the
    flags and filters of the session, and appends exactly one exchange
    to the transcript.  Building the request never fails: the two
    selectors always hold one of their options. *)
Theorem submission_sends_one_request (env : Env) (acts : list Action)
        (prompt : pystr) :
  prompt <> [] ->
  active_agents (session (interactions env acts (open_page env)))
  <> mkAgents false false false ->
  exists i j reply,
    (i < 5)%nat /\ (j < 5)%nat /\
    year (session (interactions env acts (open_page env)))
    = nth i year_options [] /\
    quarter (session (interactions env acts (open_page env)))
    = nth j quarter_options [] /\
    requests_sent
      (page (interact env (Submit prompt)
                      (interactions env acts (open_page env))))
    = [chat_post (format_url (FASTAPI_URL env)) prompt
                 (active_agents
                    (session (interactions env acts (open_page env))))
                 i j] /\
    messages
      (session (interact env (Submit prompt)
                         (interactions env acts (open_page env))))
    = messages (session (interactions env acts (open_page env)))
        ++ [user_message prompt; reply] /\
    role reply = lit "assistant".
Proof.
  intros Hp Hf.
  destruct (reachable_settled env acts) as [C [S [Ha [Hy [Hq [Hx [Hc _]]]]]]].
  set (b := interactions env acts (open_page env)) in *.
  assert (Hn : is_nil (active_agent_names (active_agents (session b))) = false).
  { destruct (is_nil (active_agent_names (active_agents (session b)))) eqn:E;
      [|reflexivity].
    exfalso. apply Hf. now apply no_names_iff. }
  assert (F : fire (Submit prompt) b = Some (type_prompt prompt (held b))).
  { cbn [fire]. rewrite Hc, Hn. now destruct prompt. }
  rewrite (interact_fired _ _ _ _ F). cbn [session page].
  assert (Hn' : active_agent_names
                  (agents_after (type_prompt prompt (held b))
                                (active_agents (session b))) <> []).
  { change (agents_after (type_prompt prompt (held b)) (active_agents (session b)))
      with (agents_after (held b) (active_agents (session b))).
    rewrite <- Ha. intros E. now rewrite E in Hn. }
  destruct (run_accepts env (type_prompt prompt (held b)) (session b) prompt
                        C eq_refl Hp Hn'
                        (exchanges_no_visualization _ Hx))
    as [i [j [reply [Hi [Hj [Ey [Eq [Hr [Hm Hrole]]]]]]]]].
  exists i, j, reply.
  change (agents_after (type_prompt prompt (held b)) (active_agents (session b)))
    with (agents_after (held b) (active_agents (session b))) in Hr.
  rewrite <- Ha in Hr.
  cbn [configured year quarter type_prompt held_year held_quarter] in Ey, Eq.
  rewrite <- Hy in Ey. rewrite <- Hq in Eq.
  splits; assumption.
Qed.

Lemma submission_sends_one_request_witness :
  revenue_question <> [] /\
  active_agents (session (interactions api_revenue [Tick Rag true]
                                       (open_page api_revenue)))
  <> mkAgents false false false /\
  exists i j reply,
    requests_sent
      (page (interact api_revenue (Submit revenue_question)
                      (interactions api_revenue [Tick Rag true]
                                    (open_page api_revenue))))
    = [chat_post (format_url (FASTAPI_URL api_revenue)) revenue_question
                 (active_agents
                    (session (interactions api_revenue [Tick Rag true]
                                           (open_page api_revenue))))
                 i j] /\
    messages
      (session (interact api_revenue (Submit revenue_question)
                         (interactions api_revenue [Tick Rag true]
                                       (open_page api_revenue))))
    = messages (session (interactions api_revenue [Tick Rag true]
                                      (open_page api_revenue)))
        ++ [user_message revenue_question; reply].
Proof.
  assert (Hp : revenue_question <> []) by (vm_compute; discriminate).
  assert (Hf : active_agents
                 (session (interactions api_revenue [Tick Rag true]
                                        (open_page api_revenue)))
               <> mkAgents false false false) by (vm_compute; discriminate).
  splits; [exact Hp|exact Hf|].
  destruct (submission_sends_one_request api_revenue [Tick Rag true]
                                         revenue_question Hp Hf)
    as [i [j [reply [_ [_ [_ [_ [Hr [Hm _]]]]]]]]].
  exists i, j, reply. split; assumption.
Defined.



Lemma chat_request_url (env : Env) (prompt : pystr) (s : Session)
      (req : Request) :
  chat_request env prompt s = ok req ->
  url req = format_url (FASTAPI_URL env) ++ lit "/chat".
Proof.
  unfold chat_request.
  destruct (filter_param (year s)); [discriminate|].
  destruct (filter_param (quarter s)); [discriminate|].
  intros [= <-]. reflexivity.
Qed.

(** X16. An unset base URL (lines 9 and 149): when the environment
    variable is not set, the script does not notice; every request it
    sends goes to the literal URL [None/chat]. *)
Theorem unset_base_url_is_sent_as_none (env : Env) (inp : Inputs)
        (s : Session) (req : Request) :
  FASTAPI_URL env = None ->
  In req (requests_sent (effects (run env inp s))) ->
  url req = lit "None/chat".
Proof.
  intros U Hin.
  destruct (run_requests env inp s) as [E|[prompt [req' [_ [R E]]]]];
    rewrite E in Hin; [contradiction|].
  destruct Hin as [<-|[]].
  rewrite (chat_request_url _ _ _ _ R), U. reflexivity.
Qed.

Lemma unset_base_url_is_sent_as_none_witness :
  FASTAPI_URL api_unset = None /\
  exists req,
    In req (requests_sent (effects (run api_unset asking initial_session))) /\
    url req = lit "None/chat".
Proof.
  assert (U : FASTAPI_URL api_unset = None) by reflexivity.
  split; [exact U|].
  exists (chat_post (lit "None") revenue_question (mkAgents false true false)
                    2 2).
  assert (I : In (chat_post (lit "None") revenue_question
                            (mkAgents false true false) 2 2)
                 (requests_sent
                    (effects (run api_unset asking initial_session))))
    by (vm_compute; left; reflexivity).
  split; [exact I|].
  exact (unset_base_url_is_sent_as_none api_unset asking initial_session _ U I).
Defined.

(** X17. A freshly opened page (lines 12-21, 61-68 and 122-132):
    whatever the API would answer, loading the page sends no request;
    the session starts with an empty transcript, no report, no flag
    set, the year ["2022"] and the quarter ["None"]; the chat input is
    disabled and the quarter selector is not. *)
Theorem fresh_page (env : Env) :
  session (open_page env)
  = {| messages := [];
       research_document := PyNone;
       active_agents := mkAgents false false false;
       year := lit "2022";
       quarter := lit "None" |} /\
  requests_sent (page (open_page env)) = [] /\
  chat_disabled (page (open_page env)) = true /\
  quarter_disabled (page (open_page env)) = false.
Proof.
  unfold open_page.
  destruct (run_quiet env untouched initial_session eq_refl eq_refl) as [E R].
  pose proof (run_chat_flag env untouched initial_session (Forall_nil _)) as Hc.
  pose proof (run_quarter_flag env untouched initial_session) as Hq.
  destruct (run env untouched initial_session) as [[s t] r].
  cbn [final_session effects fst snd session page] in *.
  splits; [rewrite E; reflexivity|exact R|rewrite Hc; reflexivity|
           rewrite Hq; vm_compute; reflexivity].
Qed.



(** What one user event without a click on Clear Conversation does to
    the messages. *)
Lemma run_appends (env : Env) (inp : Inputs) (s : Session) :
  clear_clicked inp = false ->
  messages (final_session (run env inp s)) = messages s \/
  exists prompt reply,
    messages (final_session (run env inp s))
    = messages s ++ [user_message prompt; reply].
Proof.
  intros C. rewrite run_spec, C, main_page_spec.
  destruct (for_each (messages (configured inp s)) render_message
                     (configured inp s)) as [[s1 t1] [e|[]]].
  { left. reflexivity. }
  cbv zeta. rewrite chat_spec.
  set (names := active_agent_names (active_agents (configured inp s))).
  destruct (is_nil names).
  { left. script_step.
    now destruct (latest_download (configured inp s)) as [[s3 t3] r3]. }
  destruct (submitted inp) as [p|].
  2:{ left. script_step.
      now destruct (latest_download (configured inp s)) as [[s3 t3] r3]. }
  destruct (is_nil p).
  { left. script_step.
    now destruct (latest_download (configured inp s)) as [[s3 t3] r3]. }
  right.
  destruct (submit_query_appends env names p (configured inp s))
    as [reply [Hr [Hm _]]].
  exists p, reply.
  destruct (submit_query env names p (configured inp s)) as [[s2 t2] r2].
  cbn [result final_session fst snd] in Hr, Hm. subst r2.
  script_step. now destruct (latest_download s2) as [[s3 t3] r3].
Qed.

(** X19. The transcript only grows (lines 135 and 211-229): on a page
    the user can reach, no event other than the click on Clear
    Conversation removes or alters a message; the transcript after the
    event is the transcript before it, followed by nothing or by one
    exchange.  The click empties it. *)
Theorem transcript_only_grows (env : Env) (acts : list Action) (a : Action) :
  match a with
  | ClickClear =>
      messages
        (session (interact env a (interactions env acts (open_page env))))
      = []
  | _ =>
      exists added,
        messages
          (session (interact env a (interactions env acts (open_page env))))
        = messages (session (interactions env acts (open_page env))) ++ added /\
        (List.length added = 0 \/ List.length added = 2)%nat
  end.
Proof.
  destruct (reachable_settled env acts) as [C _].
  set (b := interactions env acts (open_page env)) in *.
  assert (H : forall inp,
             fire a b = Some inp -> clear_clicked inp = false ->
             exists added,
               messages (session (interact env a b))
               = messages (session b) ++ added /\
               (List.length added = 0 \/ List.length added = 2)%nat).
  { intros inp F C'. rewrite (interact_fired _ _ _ _ F). cbn [session].
    destruct (run_appends env inp (session b) C') as [E|[p [reply E]]];
      rewrite E.
    - exists []. split; [now rewrite app_nil_r|now left].
    - exists [user_message p; reply]. split; [reflexivity|now right]. }
  assert (N : fire a b = None ->
              exists added,
                messages (session (interact env a b))
                = messages (session b) ++ added /\
                (List.length added = 0 \/ List.length added = 2)%nat).
  { intros F. unfold interact. rewrite F. exists [].
    split; [now rewrite app_nil_r|now left]. }
  destruct a as [name v|i|j| |p].
  - apply (H (hold_agent name v (held b)) eq_refl). now destruct name.
  - cbn [fire] in H, N. destruct (i <? List.length year_options)%nat.
    + apply (H _ eq_refl). exact C.
    + now apply N.
  - cbn [fire] in H, N.
    destruct (negb (quarter_disabled (page b))
              && (j <? List.length quarter_options)%nat).
    + apply (H _ eq_refl). exact C.
    + now apply N.
  - rewrite (interact_fired env ClickClear b (click_clear (held b)) eq_refl).
    cbn [session]. rewrite run_spec. cbn [clear_clicked click_clear].
    change (configured (click_clear (held b)) (session b))
      with (configured (held b) (session b)).
    now rewrite main_page_after_clear.
  - cbn [fire] in H, N.
    destruct (negb (chat_disabled (page b)) && negb (is_nil p)).
    + apply (H _ eq_refl). exact C.
    + now apply N.
Qed.
